(** * poa-multi-agent: tool adapters, completion poller and pipeline assembly

    A shallow embedding of
      - [tools/crawler_tools.py]   (crawl submission, status, poller, query),
      - [tools/analysis_tools.py]  (sensitive content, sentiment, topics,
                                    trends, engagement),
      - [services/agent_runner.py] and the [poa_agents] constructors,
    followed by the properties of the specification that concern them.

    Conventions of the embedding:
      - a Python [int] is a [Z], a [float] a binary64 [spec_float];
      - an [async] function is a function on the trace of the run, which
        records every HTTP exchange, clock reading and sleep in order; what
        the services answer and what the clock shows is a parameter, the
        [World];
      - a raised exception is a [Raise] result; the classes modelled are
        those deriving from [Exception], the ones [except Exception] catches;
      - [@function_tool] registers a function with the agent SDK; the
        embedding is of the function bodies, called the way the source
        calls them;
      - an [Agent] is an object in a heap, known by its address. *)

From Stdlib Require Import ZArith List String Ascii Bool Lia.
From Stdlib Require Import DecimalString.
From Stdlib Require Import SpecFloat.
Import ListNotations.
Local Open Scope string_scope.
Local Open Scope Z_scope.

Set Warnings "-register-all".

(* ================================================================== *)
(** ** Python values *)
(* ================================================================== *)

Module Py.

(** Python's [float] is IEEE-754 binary64; it is modelled bit for bit by
    [spec_float] at precision 53 and maximal exponent 1024. *)
Definition float := spec_float.
Definition prec : Z := 53.
Definition emax : Z := 1024.

(** The values that travel through the tools: what [json.loads] and
    [response.json()] produce and what [json.dumps] accepts.  A [dict] keeps
    its keys in insertion order. *)
Inductive value : Type :=
| VNone
| VBool (b : bool)
| VInt (n : Z)
| VFloat (x : float)
| VStr (s : string)
| VList (items : list value)
| VDict (entries : list (string * value)).

(** The exception classes the tools can meet.  All of them derive from
    [Exception]; [HTTPError] stands for [httpx.HTTPError] and its subclasses
    (transport errors and the [HTTPStatusError] of [raise_for_status]). *)
Inductive exn : Type :=
| HTTPError (msg : string)
| JSONDecodeError (msg : string)
| TypeError (msg : string)
| AttributeError (msg : string)
| ZeroDivisionError (msg : string)
| OverflowError (msg : string)
| OtherException (msg : string).

(** [str(e)] *)
Definition str_exn (e : exn) : string :=
  match e with
  | HTTPError m | JSONDecodeError m | TypeError m | AttributeError m
  | ZeroDivisionError m | OverflowError m | OtherException m => m
  end.

(** [isinstance(e, httpx.HTTPError)] *)
Definition is_HTTPError (e : exn) : bool :=
  match e with HTTPError _ => true | _ => false end.

(** Outcome of evaluating an expression: a value or a raised exception. *)
Inductive result (A : Type) : Type :=
| Ok (a : A)
| Raise (e : exn).
Arguments Ok {A} a.
Arguments Raise {A} e.

Definition rbind {A B} (r : result A) (k : A -> result B) : result B :=
  match r with Ok a => k a | Raise e => Raise e end.

(** *** Text *)

(** [str(n)] for an [int]. *)
Definition str_int (n : Z) : string := NilZero.string_of_int (Z.to_int n).

Fixpoint starts_with (p s : string) : bool :=
  match p, s with
  | EmptyString, _ => true
  | String a p', String b s' => Ascii.eqb a b && starts_with p' s'
  | String _ _, EmptyString => false
  end.

(** [p in s] for two [str]: substring test. *)
Fixpoint substring_of (p s : string) : bool :=
  starts_with p s ||
  match s with
  | EmptyString => false
  | String _ s' => substring_of p s'
  end.

(** A [str] that is handed to [json.loads] or came out of [json.dumps].  A
    well-formed document is identified with the value it denotes (layout and
    escaping are abstracted); any other text is kept with the message of the
    [JSONDecodeError] it provokes. *)
Inductive json_text : Type :=
| Encoded (v : value)
| Malformed (raw : string) (msg : string).

(** [json.dumps(v, ensure_ascii=False)] *)
Definition dumps (v : value) : json_text := Encoded v.

(** [json.loads(s)] *)
Definition loads (s : json_text) : result value :=
  match s with
  | Encoded v => Ok v
  | Malformed _ msg => Raise (JSONDecodeError msg)
  end.

(** *** Dictionaries and membership *)

Fixpoint dict_get (entries : list (string * value)) (k : string) : option value :=
  match entries with
  | [] => None
  | (k', v) :: rest => if String.eqb k' k then Some v else dict_get rest k
  end.

(** [d[k] = v]: overwrite in place or append. *)
Fixpoint dict_set (entries : list (string * value)) (k : string) (v : value)
  : list (string * value) :=
  match entries with
  | [] => [(k, v)]
  | (k', v') :: rest =>
      if String.eqb k' k then (k', v) :: rest
      else (k', v') :: dict_set rest k v
  end.

Definition is_str (s : string) (v : value) : bool :=
  match v with VStr t => String.eqb t s | _ => false end.

(** [s in x] where [s] is a [str] literal and [x] any decoded value: key
    membership on a dict, element membership on a list, substring on a
    string, [TypeError] on anything that is not a container. *)
Definition str_in (s : string) (x : value) : result bool :=
  match x with
  | VDict entries =>
      Ok (match dict_get entries s with Some _ => true | None => false end)
  | VList items => Ok (existsb (is_str s) items)
  | VStr t => Ok (substring_of s t)
  | _ => Raise (TypeError "argument is not iterable")
  end.

(** [x.get(k)]: only a dict has the method. *)
Definition get_method (x : value) (k : string) : result value :=
  match x with
  | VDict entries =>
      Ok (match dict_get entries k with Some v => v | None => VNone end)
  | _ => Raise (AttributeError "object has no attribute 'get'")
  end.

(** [x in [s1, s2, ...]] for a list of [str] literals. *)
Definition in_strs (x : value) (l : list string) : bool :=
  existsb (fun s => is_str s x) l.

(** Truth value of an [Optional[str]] argument. *)
Definition truthy (o : option string) : bool :=
  match o with
  | None => false
  | Some s => negb (String.eqb s "")
  end.

(** *** Numbers *)

(** The float nearest to [num / den] ([den > 0]), ties to even: the quotient
    is computed with at least 64 significant bits and a sticky bit, then
    rounded once. *)
Definition nearest_float (sign : bool) (num den : Z) : float :=
  let k := Z.max 0 (64 + Z.log2 den - Z.log2 num) in
  let q := Z.shiftl num k / den in
  let sticky := if Z.eqb (Z.shiftl num k mod den) 0 then 0 else 1 in
  let m := 2 * q + sticky in
  match m with
  | Z0 => S754_zero sign
  | Zpos p => binary_round prec emax sign p (- k - 1)
  | Zneg _ => S754_nan
  end.

Definition is_inf (x : float) : bool :=
  match x with S754_infinity _ => true | _ => false end.

(** [float(n)] for an [int]: nearest float, [OverflowError] beyond the range. *)
Definition float_of_int (n : Z) : result float :=
  let x := nearest_float (n <? 0) (Z.abs n) 1 in
  if is_inf x then Raise (OverflowError "int too large to convert to float")
  else Ok x.

(** A Python number as [analyze_engagement] computes with them. *)
Inductive num : Type :=
| NInt (n : Z)
| NFloat (x : float).

Definition value_of_num (n : num) : value :=
  match n with NInt z => VInt z | NFloat x => VFloat x end.

Definition to_float (a : num) : result float :=
  match a with NInt n => float_of_int n | NFloat x => Ok x end.

Definition is_zero_float (x : float) : bool :=
  match x with S754_zero _ => true | _ => false end.

(** [a / b]: true division.  Two ints give the correctly rounded quotient. *)
Definition truediv (a b : num) : result num :=
  match a, b with
  | NInt x, NInt y =>
      if y =? 0 then Raise (ZeroDivisionError "division by zero")
      else
        let r := nearest_float (xorb (x <? 0) (y <? 0)) (Z.abs x) (Z.abs y) in
        if is_inf r
        then Raise (OverflowError "integer division result too large for a float")
        else Ok (NFloat r)
  | _, _ =>
      rbind (to_float a) (fun x =>
      rbind (to_float b) (fun y =>
      if is_zero_float y then Raise (ZeroDivisionError "float division by zero")
      else Ok (NFloat (SFdiv prec emax x y))))
  end.

(** [a * b] *)
Definition mul (a b : num) : result num :=
  match a, b with
  | NInt x, NInt y => Ok (NInt (x * y))
  | _, _ =>
      rbind (to_float a) (fun x =>
      rbind (to_float b) (fun y => Ok (NFloat (SFmul prec emax x y))))
  end.

(** [a - b] *)
Definition sub (a b : num) : result num :=
  match a, b with
  | NInt x, NInt y => Ok (NInt (x - y))
  | _, _ =>
      rbind (to_float a) (fun x =>
      rbind (to_float b) (fun y => Ok (NFloat (SFsub prec emax x y))))
  end.

(** [x > n] for a float and an int, compared exactly (no conversion). *)
Definition float_gt_int (x : float) (n : Z) : bool :=
  match x with
  | S754_nan => false
  | S754_infinity s => negb s
  | S754_zero _ => 0 >? n
  | S754_finite s m e =>
      let v := if s then Z.neg m else Z.pos m in
      if 0 <=? e then Z.shiftl v e >? n
      else v >? Z.shiftl n (- e)
  end.

(** [a > n] where [n] is an [int] literal. *)
Definition gt_int (a : num) (n : Z) : bool :=
  match a with
  | NInt x => x >? n
  | NFloat x => float_gt_int x n
  end.

(** Nearest integer to [num / den] ([den > 0], [num >= 0]), ties to even. *)
Definition round_half_even (num den : Z) : Z :=
  let q := num / den in
  let r := num mod den in
  match 2 * r ?= den with
  | Lt => q
  | Gt => q + 1
  | Eq => if Z.even q then q else q + 1
  end.

(** [round(x, ndigits)] for a float and [0 <= ndigits]: the exact value of
    [x] is rounded to [ndigits] decimals, ties to even, and the decimal is
    read back as the nearest float.  Infinities and NaN round to themselves. *)
Definition round_float (x : float) (ndigits : Z) : result float :=
  match x with
  | S754_finite s m e =>
      if 323 <? ndigits then Ok x
      else
        let p := 10 ^ ndigits in
        let scaled :=
          if 0 <=? e then round_half_even (Z.shiftl (Z.pos m) e * p) 1
          else round_half_even (Z.pos m * p) (Z.shiftl 1 (- e)) in
        let r := nearest_float s scaled p in
        if is_inf r
        then Raise (OverflowError "rounded value too large to represent")
        else Ok r
  | _ => Ok x
  end.

(** [round(a, ndigits)] with [0 <= ndigits]; an int is returned unchanged. *)
Definition round (a : num) (ndigits : Z) : result num :=
  match a with
  | NInt n => Ok (NInt n)
  | NFloat x => rbind (round_float x ndigits) (fun r => Ok (NFloat r))
  end.

(** [n or d] for ints: the first operand unless it is zero. *)
Definition int_or (n d : Z) : Z := if n =? 0 then d else n.

End Py.


(* ================================================================== *)
(** ** Effects: HTTP exchanges, the event-loop clock, suspension *)
(* ================================================================== *)

Module Eff.
Import Py.

Inductive method : Type := GET | POST.

(** One call through [httpx.AsyncClient]: where it goes and what it carries
    ([params] is the query string of a GET, [body] the [json=] of a POST,
    [timeout] the client's timeout in seconds). *)
Record request : Type := mkRequest {
  req_method : method;
  req_url : string;
  req_params : list (string * value);
  req_body : option value;
  req_timeout : Z
}.

(** What happens outside the process.  [http k r] is the outcome of the
    [k]-th exchange of the run when it sends [r]: sending, then
    [raise_for_status()], then [response.json()], so either the decoded
    payload or the exception one of the three raised.  [loop_time k] is the
    [k]-th reading of [asyncio.get_event_loop().time()]. *)
Record World : Type := mkWorld {
  http : nat -> request -> result value;
  loop_time : nat -> float
}.

(** What a run has done so far, most recent first. *)
Inductive event : Type :=
| Exchange (r : request)
| TimeRead
| Sleep (delay : Z).

Definition Run : Type := list event.

Definition is_exchange (e : event) : bool :=
  match e with Exchange _ => true | _ => false end.
Definition is_time_read (e : event) : bool :=
  match e with TimeRead => true | _ => false end.

Definition exchanges (t : Run) : nat := List.length (filter is_exchange t).
Definition time_reads (t : Run) : nat := List.length (filter is_time_read t).

(** A coroutine: it extends the run and yields a value or raises.  Effects
    performed before an exception stay performed. *)
Definition M (A : Type) : Type := Run -> result A * Run.

Definition ret {A} (a : A) : M A := fun t => (Ok a, t).
Definition raise {A} (e : exn) : M A := fun t => (Raise e, t).
Definition bind {A B} (c : M A) (k : A -> M B) : M B :=
  fun t => match c t with
           | (Ok a, t') => k a t'
           | (Raise e, t') => (Raise e, t')
           end.
Definition lift {A} (r : result A) : M A := fun t => (r, t).

(** [try: c  except httpx.HTTPError as e: h1(e)  except Exception as e: h2(e)] *)
Definition try_except {A} (c : M A) (on_http on_other : exn -> M A) : M A :=
  fun t => match c t with
           | (Ok a, t') => (Ok a, t')
           | (Raise e, t') =>
               if is_HTTPError e then on_http e t' else on_other e t'
           end.

End Eff.

Declare Scope py_scope.
Delimit Scope py_scope with py.
Notation "x <- c ;; k" := (Eff.bind c (fun x => k))
  (at level 61, c at next level, right associativity) : py_scope.
Notation "c ;;; k" := (Eff.bind c (fun _ => k))
  (at level 61, right associativity) : py_scope.

(* ================================================================== *)
(** ** [config.py] *)
(* ================================================================== *)

(** The fields of [Settings] the tools and agents read. *)
Record Settings : Type := mkSettings {
  crawler_api_base : string;
  sensitive_content_api : string;
  sentiment_api : string;
  coordinator_model : string;
  data_collection_model : string;
  analysis_model : string;
  report_model : string;
  decision_model : string
}.

(* ================================================================== *)
(** ** [tools/crawler_tools.py] *)
(* ================================================================== *)

Module CrawlerTools.
Import Py Eff.
Local Open Scope py_scope.

Section WithWorld.
Variable settings : Settings.
Variable world : World.

(** [await client.get/post(...)], [raise_for_status()], [response.json()]. *)
Definition send (r : request) : M value :=
  fun t => (http world (exchanges t) r, Exchange r :: t).

(** [asyncio.get_event_loop().time()] *)
Definition now : M float :=
  fun t => (Ok (loop_time world (time_reads t)), TimeRead :: t).

(** [await asyncio.sleep(delay)] *)
Definition sleep (delay : Z) : M unit :=
  fun t => (Ok tt, Sleep delay :: t).

Definition create_crawler_task_request (platform crawler_type : string)
    (config : value) : request :=
  mkRequest POST (crawler_api_base settings ++ "/tasks/crawl") []
    (Some (VDict [("platform", VStr platform);
                  ("crawler_type", VStr crawler_type);
                  ("config", config)]))
    30.

Definition create_crawler_task (platform crawler_type : string)
    (config_json : json_text) : M json_text :=
  try_except
    (config <- lift (loads config_json) ;;
     payload <- send (create_crawler_task_request platform crawler_type config) ;;
     ret (dumps payload))
    (fun e => ret (dumps (VDict
       [("error", VStr ("Failed to create crawler task: " ++ str_exn e));
        ("platform", VStr platform);
        ("crawler_type", VStr crawler_type)])))
    (fun e => ret (dumps (VDict
       [("error", VStr ("Unexpected error: " ++ str_exn e));
        ("platform", VStr platform);
        ("crawler_type", VStr crawler_type)]))).

Definition get_task_status_request (task_id : string) : request :=
  mkRequest GET (crawler_api_base settings ++ "/tasks/" ++ task_id) [] None 10.

Definition get_task_status (task_id : string) : M json_text :=
  try_except
    (payload <- send (get_task_status_request task_id) ;;
     ret (dumps payload))
    (fun e => ret (dumps (VDict
       [("error", VStr ("Failed to get task status: " ++ str_exn e));
        ("task_id", VStr task_id)])))
    (fun e => ret (dumps (VDict
       [("error", VStr ("Unexpected error: " ++ str_exn e));
        ("task_id", VStr task_id)]))).

(** The result built when the deadline has passed. *)
Definition timeout_result (task_id : string) (timeout : Z)
    (status_result : value) : value :=
  VDict [("error", VStr ("Task " ++ task_id ++ " did not complete within "
                           ++ str_int timeout ++ "s"));
         ("task_id", VStr task_id);
         ("status", VStr "timeout");
         ("last_status", status_result)].

(** One pass through the body of [while True] up to, and not including, the
    [asyncio.sleep]: [Some s] when the pass executes [return s], [None] when
    it falls through to the sleep. *)
Definition poll_once (task_id : string) (timeout : Z) (start_time : float)
  : M (option json_text) :=
  status_result_json <- get_task_status task_id ;;
  status_result <- lift (loads status_result_json) ;;
  has_error <- lift (str_in "error" status_result) ;;
  if has_error then ret (Some status_result_json)
  else
    status <- lift (get_method status_result "status") ;;
    if in_strs status ["completed"; "failed"; "cancelled"]
    then ret (Some status_result_json)
    else
      t1 <- now ;;
      let elapsed := SFsub prec emax t1 start_time in
      if float_gt_int elapsed timeout
      then ret (Some (dumps (timeout_result task_id timeout status_result)))
      else ret None.

(** The [while True] loop, unrolled at most [fuel] times; [None] when the
    loop is still running after [fuel] passes. *)
Fixpoint wait_loop (fuel : nat) (task_id : string) (timeout poll_interval : Z)
    (start_time : float) (t : Run) : option (result json_text * Run) :=
  match fuel with
  | O => None
  | S fuel' =>
      match poll_once task_id timeout start_time t with
      | (Raise e, t') => Some (Raise e, t')
      | (Ok (Some s), t') => Some (Ok s, t')
      | (Ok None, t') =>
          wait_loop fuel' task_id timeout poll_interval start_time
            (snd (sleep poll_interval t'))
      end
  end.

Definition wait_for_task_completion (fuel : nat) (task_id : string)
    (timeout poll_interval : Z) (t : Run) : option (result json_text * Run) :=
  match now t with
  | (Ok start_time, t') =>
      wait_loop fuel task_id timeout poll_interval start_time t'
  | (Raise e, t') => Some (Raise e, t')
  end.

Definition get_crawler_statistics_request (task_id : string) : request :=
  mkRequest GET (crawler_api_base settings ++ "/tasks/" ++ task_id ++ "/stats")
    [] None 10.

Definition get_crawler_statistics (task_id : string) : M json_text :=
  try_except
    (payload <- send (get_crawler_statistics_request task_id) ;;
     ret (dumps payload))
    (fun e => ret (dumps (VDict
       [("error", VStr ("Failed to get statistics: " ++ str_exn e));
        ("task_id", VStr task_id)])))
    (fun e => ret (dumps (VDict
       [("error", VStr ("Unexpected error: " ++ str_exn e));
        ("task_id", VStr task_id)]))).

(** [if x: params[key] = x] for an optional filter. *)
Definition set_if (key : string) (x : option string)
    (params : list (string * value)) : list (string * value) :=
  match x with
  | Some s => if truthy x then dict_set params key (VStr s) else params
  | None => params
  end.

(** The [params] dict as [query_crawled_posts] fills it. *)
Definition query_params (platform keyword start_time end_time : option string)
    (limit : Z) : list (string * value) :=
  let params := [("limit", VInt (Z.min limit 1000))] in
  let params := set_if "platform" platform params in
  let params := set_if "keyword" keyword params in
  let params := set_if "start_time" start_time params in
  let params := set_if "end_time" end_time params in
  params.

Definition query_crawled_posts_request
    (platform keyword start_time end_time : option string) (limit : Z)
  : request :=
  mkRequest GET (crawler_api_base settings ++ "/posts")
    (query_params platform keyword start_time end_time limit) None 30.

Definition query_crawled_posts
    (platform keyword start_time end_time : option string) (limit : Z)
  : M json_text :=
  try_except
    (payload <- send (query_crawled_posts_request platform keyword
                        start_time end_time limit) ;;
     ret (dumps payload))
    (fun e => ret (dumps (VList
       [VDict [("error", VStr ("Failed to query posts: " ++ str_exn e))]])))
    (fun e => ret (dumps (VList
       [VDict [("error", VStr ("Unexpected error: " ++ str_exn e))]]))).

End WithWorld.
End CrawlerTools.

(* ================================================================== *)
(** ** [tools/analysis_tools.py] *)
(* ================================================================== *)

Module AnalysisTools.
Import Py Eff.
Local Open Scope py_scope.

Section WithWorld.
Variable settings : Settings.
Variable world : World.

Let send := CrawlerTools.send world.

Definition analyze_sensitive_content_request (video_url video_id : string)
  : request :=
  mkRequest POST (sensitive_content_api settings ++ "/analyze") []
    (Some (VDict [("video_url", VStr video_url); ("video_id", VStr video_id)]))
    120.

Definition analyze_sensitive_content (video_url video_id : string) : M value :=
  try_except
    (send (analyze_sensitive_content_request video_url video_id))
    (fun e => ret (VDict
       [("error", VStr ("Failed to analyze sensitive content: " ++ str_exn e));
        ("video_id", VStr video_id);
        ("has_violation", VBool false)]))
    (fun e => ret (VDict
       [("error", VStr ("Unexpected error: " ++ str_exn e));
        ("video_id", VStr video_id);
        ("has_violation", VBool false)])).

Definition analyze_sentiment_request (text post_id : string) : request :=
  mkRequest POST (sentiment_api settings ++ "/analyze") []
    (Some (VDict [("text", VStr text); ("post_id", VStr post_id)]))
    30.

(** The float literal [0.0]. *)
Definition zero : float := S754_zero false.

Definition analyze_sentiment (text post_id : string) : M value :=
  try_except
    (send (analyze_sentiment_request text post_id))
    (fun e => ret (VDict
       [("error", VStr ("Failed to analyze sentiment: " ++ str_exn e));
        ("post_id", VStr post_id);
        ("overall_sentiment", VStr "neutral");
        ("sentiment_score", VFloat zero);
        ("emotions", VDict []);
        ("confidence", VFloat zero)]))
    (fun e => ret (VDict
       [("error", VStr ("Unexpected error: " ++ str_exn e));
        ("post_id", VStr post_id);
        ("overall_sentiment", VStr "neutral");
        ("sentiment_score", VFloat zero);
        ("emotions", VDict []);
        ("confidence", VFloat zero)])).

Definition extract_topics_request (texts : list string) (num_topics : Z)
  : request :=
  mkRequest POST (sentiment_api settings ++ "/topics") []
    (Some (VDict [("texts", VList (map VStr texts));
                  ("num_topics", VInt (Z.max 3 (Z.min num_topics 20)))]))
    60.

Definition extract_topics (texts : list string) (num_topics : Z) : M json_text :=
  try_except
    (payload <- send (extract_topics_request texts num_topics) ;;
     ret (dumps payload))
    (fun e => ret (dumps (VList
       [VDict [("error", VStr ("Failed to extract topics: " ++ str_exn e))]])))
    (fun e => ret (dumps (VList
       [VDict [("error", VStr ("Unexpected error: " ++ str_exn e))]]))).

Definition detect_trends_request (post_data : value) (time_window : string)
  : request :=
  mkRequest POST (sentiment_api settings ++ "/trends") []
    (Some (VDict [("posts", post_data); ("time_window", VStr time_window)]))
    60.

Definition detect_trends (post_data_json : json_text) (time_window : string)
  : M json_text :=
  try_except
    (post_data <- lift (loads post_data_json) ;;
     payload <- send (detect_trends_request post_data time_window) ;;
     ret (dumps payload))
    (fun e => ret (dumps (VList
       [VDict [("error", VStr ("Failed to detect trends: " ++ str_exn e))]])))
    (fun e => ret (dumps (VList
       [VDict [("error", VStr ("Unexpected error: " ++ str_exn e))]]))).

End WithWorld.

(** The float literal [5.2]. *)
Definition platform_avg : float := nearest_float false 52 10.

(** [(n / views) * 100 if views > 0 else 0] *)
Definition rate (n views : Z) : result num :=
  if views >? 0
  then rbind (truediv (NInt n) (NInt views)) (fun q => mul q (NInt 100))
  else Ok (NInt 0).

(** The [if]/[elif] ladder on the engagement rate: level and percentile. *)
Definition level_of (engagement_rate : num) : string * Z :=
  if gt_int engagement_rate 10 then ("very_high", 95)
  else if gt_int engagement_rate 5 then ("high", 75)
  else if gt_int engagement_rate 2 then ("medium", 50)
  else ("low", 25).

(** [round((engagement_rate / platform_avg - 1) * 100, 1) if platform_avg > 0 else 0] *)
Definition vs_average (engagement_rate : num) : result num :=
  if float_gt_int platform_avg 0
  then
    rbind (truediv engagement_rate (NFloat platform_avg)) (fun q =>
    rbind (sub q (NInt 1)) (fun d =>
    rbind (mul d (NInt 100)) (fun p =>
    round p 1)))
  else Ok (NInt 0).

(** The [result] dict of [analyze_engagement], before [json.dumps]. *)
Definition engagement_result (likes comments shares views : Z) : result value :=
  let likes := int_or likes 0 in
  let comments := int_or comments 0 in
  let shares := int_or shares 0 in
  let views := int_or views 1 in
  let total_interactions := likes + comments + shares in
  rbind (rate total_interactions views) (fun engagement_rate =>
  rbind (rate (comments + shares) views) (fun interaction_rate =>
  let '(level, percentile) := level_of engagement_rate in
  rbind (round engagement_rate 2) (fun engagement_rate_2 =>
  rbind (round interaction_rate 2) (fun interaction_rate_2 =>
  rbind (vs_average engagement_rate) (fun vs_avg =>
  Ok (VDict
    [("engagement_rate", value_of_num engagement_rate_2);
     ("interaction_rate", value_of_num interaction_rate_2);
     ("engagement_level", VStr level);
     ("total_interactions", VInt total_interactions);
     ("metrics", VDict [("likes", VInt likes); ("comments", VInt comments);
                        ("shares", VInt shares); ("views", VInt views)]);
     ("benchmarks", VDict [("platform_average", VFloat platform_avg);
                           ("percentile", VInt percentile);
                           ("vs_average", value_of_num vs_avg)])])))))).

Definition analyze_engagement (likes comments shares views : Z)
  : result json_text :=
  rbind (engagement_result likes comments shares views) (fun r => Ok (dumps r)).

End AnalysisTools.

(* ================================================================== *)
(** ** [poa_agents/*.py] and [services/agent_runner.py] *)
(* ================================================================== *)

Module AgentRunner.
Local Open Scope list_scope.
Local Open Scope nat_scope.

(** The function tools an agent can be given. *)
Inductive tool : Type :=
| create_crawler_task
| get_task_status
| wait_for_task_completion
| get_crawler_statistics
| query_crawled_posts
| analyze_sensitive_content
| analyze_sentiment
| extract_topics
| detect_trends
| analyze_engagement.

(** The instruction texts, by the name of the constant that holds them. *)
Inductive instructions_text : Type :=
| COORDINATOR_INSTRUCTIONS
| DATA_COLLECTION_INSTRUCTIONS
| CONTENT_ANALYSIS_INSTRUCTIONS
| REPORT_GENERATION_INSTRUCTIONS
| DECISION_SUPPORT_INSTRUCTIONS.

(** The output models of [schemas/outputs.py] used as [output_type]. *)
Inductive output_model : Type :=
| CrawlerResult
| AnalysisResult
| AnalysisReport
| DecisionSupport.

(** An [Agent] object lives in the heap and is known by its address; two
    references denote the same instance ([is]) exactly when the addresses
    are equal. *)
Definition ref : Type := nat.

Record Agent : Type := mkAgent {
  name : string;
  model : string;
  instructions : instructions_text;
  tools : list tool;
  handoffs : list ref;
  output_type : option output_model
}.

Definition Heap : Type := list Agent.

(** [Agent(...)]: a new object at the next free address.  Nothing is ever
    freed: an instance that was handed out stays where it is. *)
Definition new_agent (a : Agent) (h : Heap) : ref * Heap :=
  (List.length h, h ++ [a]).

Section WithSettings.
Variable settings : Settings.

(** Tool set and output model of the report agent (see
    [create_report_generation_agent]). *)
Variable report_tools : list tool.
Variable report_output : option output_model.

Definition create_decision_support_agent (h : Heap) : ref * Heap :=
  new_agent
    (mkAgent "Decision Support" (decision_model settings)
       DECISION_SUPPORT_INSTRUCTIONS [] [] (Some DecisionSupport)) h.

(** Modelled from the spec: [poa_agents/report_generation.py] is imported by
    [agent_runner.py] but is not among the sources.  The spec gives the
    wiring, Report-Generation hands off to Decision-Support and to nothing
    else; the tool set and the output model, which it leaves open, are the
    section's parameters. *)
Definition create_report_generation_agent (decision_support_agent : ref)
    (h : Heap) : ref * Heap :=
  new_agent
    (mkAgent "Report Generation" (report_model settings)
       REPORT_GENERATION_INSTRUCTIONS report_tools [decision_support_agent]
       report_output) h.

Definition create_content_analysis_agent (report_generation_agent : ref)
    (h : Heap) : ref * Heap :=
  new_agent
    (mkAgent "Content Analysis" (analysis_model settings)
       CONTENT_ANALYSIS_INSTRUCTIONS
       [analyze_sensitive_content; analyze_sentiment; extract_topics;
        detect_trends; analyze_engagement]
       [report_generation_agent] (Some AnalysisResult)) h.

Definition create_data_collection_agent (content_analysis_agent : ref)
    (h : Heap) : ref * Heap :=
  new_agent
    (mkAgent "Data Collection" (data_collection_model settings)
       DATA_COLLECTION_INSTRUCTIONS
       [create_crawler_task; get_task_status; wait_for_task_completion;
        get_crawler_statistics; query_crawled_posts]
       [content_analysis_agent] (Some CrawlerResult)) h.

Definition create_coordinator_agent
    (data_collection_agent analysis_pipeline_agent : ref) (h : Heap)
  : ref * Heap :=
  new_agent
    (mkAgent "Coordinator" (coordinator_model settings)
       COORDINATOR_INSTRUCTIONS
       [create_crawler_task; get_task_status; wait_for_task_completion;
        query_crawled_posts]
       [data_collection_agent; analysis_pipeline_agent] None) h.

Definition initialize_agent_system (h : Heap) : ref * Heap :=
  let '(decision_support_agent, h) := create_decision_support_agent h in
  let '(report_generation_agent, h) :=
    create_report_generation_agent decision_support_agent h in
  let '(content_analysis_agent, h) :=
    create_content_analysis_agent report_generation_agent h in
  let '(data_collection_agent, h) :=
    create_data_collection_agent content_analysis_agent h in
  let '(coordinator_agent, h) :=
    create_coordinator_agent data_collection_agent content_analysis_agent h in
  (coordinator_agent, h).

(** The module's state: the heap and the global [_agent_system]. *)
Record State : Type := mkState {
  heap : Heap;
  agent_system : option ref
}.

(** The state when the module has just been imported. *)
Definition initial_state : State := mkState [] None.

Definition get_agent_system (s : State) : ref * State :=
  match agent_system s with
  | None =>
      let '(r, h) := initialize_agent_system (heap s) in
      (r, mkState h (Some r))
  | Some r => (r, s)
  end.

Definition reset_agent_system (s : State) : State :=
  mkState (heap s) None.

End WithSettings.

(** *** The handoff graph *)

(** [edge h a b]: agent [a] may hand off to agent [b]. *)
Definition edge (h : Heap) (a b : ref) : Prop :=
  exists ag, nth_error h a = Some ag /\ In b (handoffs ag).

(** A path of at least one handoff. *)
Inductive path (h : Heap) : ref -> ref -> Prop :=
| path_one a b : edge h a b -> path h a b
| path_step a b c : edge h a b -> path h b c -> path h a c.

Definition handoffs_of (h : Heap) (a : ref) : list ref :=
  match nth_error h a with
  | Some ag => handoffs ag
  | None => []
  end.

(** Every handoff points to an agent built earlier. *)
Definition ordered (h : Heap) : Prop :=
  forall a ag, nth_error h a = Some ag ->
    Forall (fun b => b < a) (handoffs ag).

(** What an instance looks like with the addresses forgotten: the agent's
    configuration and, recursively, that of the agents it hands off to. *)
Inductive shape : Type :=
| Shape (nm md : string) (ins : instructions_text) (tl : list tool)
        (out : option output_model) (downstream : list shape).

Fixpoint all_some {A} (l : list (option A)) : option (list A) :=
  match l with
  | [] => Some []
  | None :: _ => None
  | Some a :: rest =>
      match all_some rest with
      | Some r => Some (a :: r)
      | None => None
      end
  end.

(** The shape below [r], followed to depth [depth]. *)
Fixpoint shape_of (depth : nat) (h : Heap) (r : ref) : option shape :=
  match depth with
  | O => None
  | S d =>
      match nth_error h r with
      | None => None
      | Some ag =>
          match all_some (map (shape_of d h) (handoffs ag)) with
          | None => None
          | Some ds =>
              Some (Shape (name ag) (model ag) (instructions ag) (tools ag)
                      (output_type ag) ds)
          end
      end
  end.

(** The addresses met below [r], itself included. *)
Fixpoint nodes_of (depth : nat) (h : Heap) (r : ref) : list ref :=
  match depth with
  | O => []
  | S d => r :: flat_map (nodes_of d h) (handoffs_of h r)
  end.

(** The pipeline is five levels deep. *)
Definition pipeline_depth : nat := 5.

Definition name_of (h : Heap) (a : ref) : option string :=
  option_map name (nth_error h a).

Definition acyclic (h : Heap) : Prop := forall a, ~ path h a a.

Section Pipeline.
Variable settings : Settings.
Variable report_tools : list tool.
Variable report_output : option output_model.

(** The states the module can be in: as imported, and after any call of
    its three functions. *)
Inductive reachable : State -> Prop :=
| reach_import : reachable initial_state
| reach_get s :
    reachable s ->
    reachable (snd (get_agent_system settings report_tools report_output s))
| reach_reset s :
    reachable s -> reachable (reset_agent_system s)
| reach_initialize s :
    reachable s ->
    reachable
      (mkState
         (snd (initialize_agent_system settings report_tools report_output
                 (heap s)))
         (agent_system s)).

(** The five agents one assembly adds to a heap whose next free address is
    [base], in the order of their creation. *)
Definition pipeline_agents (base : ref) : list Agent :=
  [ mkAgent "Decision Support" (decision_model settings)
      DECISION_SUPPORT_INSTRUCTIONS [] [] (Some DecisionSupport);
    mkAgent "Report Generation" (report_model settings)
      REPORT_GENERATION_INSTRUCTIONS report_tools [base] report_output;
    mkAgent "Content Analysis" (analysis_model settings)
      CONTENT_ANALYSIS_INSTRUCTIONS
      [analyze_sensitive_content; analyze_sentiment; extract_topics;
       detect_trends; analyze_engagement]
      [S base] (Some AnalysisResult);
    mkAgent "Data Collection" (data_collection_model settings)
      DATA_COLLECTION_INSTRUCTIONS
      [create_crawler_task; get_task_status; wait_for_task_completion;
       get_crawler_statistics; query_crawled_posts]
      [S (S base)] (Some CrawlerResult);
    mkAgent "Coordinator" (coordinator_model settings)
      COORDINATOR_INSTRUCTIONS
      [create_crawler_task; get_task_status; wait_for_task_completion;
       query_crawled_posts]
      [S (S (S base)); S (S base)] None ].

(** The shape of an assembled pipeline, level by level. *)
Definition decision_support_shape : shape :=
  Shape "Decision Support" (decision_model settings)
    DECISION_SUPPORT_INSTRUCTIONS [] (Some DecisionSupport) [].

Definition report_generation_shape : shape :=
  Shape "Report Generation" (report_model settings)
    REPORT_GENERATION_INSTRUCTIONS report_tools report_output
    [decision_support_shape].

Definition content_analysis_shape : shape :=
  Shape "Content Analysis" (analysis_model settings)
    CONTENT_ANALYSIS_INSTRUCTIONS
    [analyze_sensitive_content; analyze_sentiment; extract_topics;
     detect_trends; analyze_engagement]
    (Some AnalysisResult) [report_generation_shape].

Definition data_collection_shape : shape :=
  Shape "Data Collection" (data_collection_model settings)
    DATA_COLLECTION_INSTRUCTIONS
    [create_crawler_task; get_task_status; wait_for_task_completion;
     get_crawler_statistics; query_crawled_posts]
    (Some CrawlerResult) [content_analysis_shape].

(** Seen from the coordinator. *)
Definition pipeline_shape : shape :=
  Shape "Coordinator" (coordinator_model settings) COORDINATOR_INSTRUCTIONS
    [create_crawler_task; get_task_status; wait_for_task_completion;
     query_crawled_posts]
    None [data_collection_shape; content_analysis_shape].

(** What holds of every reachable state: handoffs point backwards, and a
    cached coordinator is a live, fully assembled pipeline. *)
Definition consistent (s : State) : Prop :=
  ordered (heap s)
  /\ forall r, agent_system s = Some r ->
       r < List.length (heap s)
       /\ shape_of pipeline_depth (heap s) r = Some pipeline_shape.

End Pipeline.

End AgentRunner.

(* ================================================================== *)
(** ** Observing a run *)
(* ================================================================== *)

Module Obs.
Import Py Eff.

(** Reading a field of a tool result that is the JSON text of a record. *)
Definition field (s : result json_text) (k : string) : option value :=
  match s with
  | Ok (Encoded (VDict entries)) => dict_get entries k
  | _ => None
  end.

(** The float a decimal literal with [d] decimals denotes, [n / 10 ^ d]. *)
Definition decimal (n : Z) (d : Z) : float :=
  nearest_float (n <? 0) (Z.abs n) (10 ^ d).

(** A field of the JSON body of a POST. *)
Definition body_field (r : request) (k : string) : option value :=
  match req_body r with
  | Some (VDict entries) => dict_get entries k
  | _ => None
  end.

(** A query parameter of a GET. *)
Definition param (r : request) (k : string) : option value :=
  dict_get (req_params r) k.

(** [carries v k x]: [v] is a record whose field [k] holds [x]. *)
Definition carries (v : value) (k : string) (x : value) : Prop :=
  exists entries, v = VDict entries /\ dict_get entries k = Some x.

(** The value a tool result denotes for the caller: itself, or what the
    returned JSON text encodes. *)
Definition decoded (s : json_text) : value :=
  match s with
  | Encoded v => v
  | Malformed raw _ => VStr raw
  end.

(** The calls an agent can make to the adapters that talk to a service. *)
Inductive tool_call : Type :=
| CreateCrawlerTask (platform crawler_type : string) (config_json : json_text)
| GetTaskStatus (task_id : string)
| GetCrawlerStatistics (task_id : string)
| QueryCrawledPosts (platform keyword start_time end_time : option string)
                    (limit : Z)
| AnalyzeSensitiveContent (video_url video_id : string)
| AnalyzeSentiment (text post_id : string)
| ExtractTopics (texts : list string) (num_topics : Z)
| DetectTrends (post_data_json : json_text) (time_window : string).

Definition fmap {A B} (f : A -> B) (c : M A) : M B :=
  bind c (fun a => ret (f a)).

Definition invoke (settings : Settings) (world : World) (c : tool_call)
  : M value :=
  match c with
  | CreateCrawlerTask p ct cfg =>
      fmap decoded (CrawlerTools.create_crawler_task settings world p ct cfg)
  | GetTaskStatus id =>
      fmap decoded (CrawlerTools.get_task_status settings world id)
  | GetCrawlerStatistics id =>
      fmap decoded (CrawlerTools.get_crawler_statistics settings world id)
  | QueryCrawledPosts p k s e l =>
      fmap decoded (CrawlerTools.query_crawled_posts settings world p k s e l)
  | AnalyzeSensitiveContent u id =>
      AnalysisTools.analyze_sensitive_content settings world u id
  | AnalyzeSentiment txt id =>
      AnalysisTools.analyze_sentiment settings world txt id
  | ExtractTopics txts n =>
      fmap decoded (AnalysisTools.extract_topics settings world txts n)
  | DetectTrends js w =>
      fmap decoded (AnalysisTools.detect_trends settings world js w)
  end.

(** The [error] text of a failed call: the adapter's own prefix for an
    [httpx.HTTPError], the generic one for any other exception. *)
Definition failure_message (specific : string) (e : exn) : string :=
  if is_HTTPError e then specific ++ str_exn e
  else "Unexpected error: " ++ str_exn e.

(** *** Worlds and settings used in the examples *)

(** The defaults of [Settings] in [config.py]. *)
Definition default_settings : Settings :=
  mkSettings "http://localhost:8000/api/v1" "http://localhost:8001/api/v1"
    "http://localhost:8002/api/v1" "gpt-4-turbo" "gpt-4o-mini" "gpt-4-turbo"
    "gpt-4-turbo" "gpt-4-turbo".

(** Every exchange fails with [e]; the clock stands still. *)
Definition failing (e : exn) : World :=
  mkWorld (fun _ _ => Raise e) (fun _ => S754_zero false).









Definition unreachable : World := failing (HTTPError "connection refused").

Definition douyin_query : tool_call :=
  QueryCrawledPosts (Some "douyin") None None None 100.

(** A pipeline assembled on the empty heap, and the module's getter, with
    the defaults of [config.py]. *)
Definition first_pipeline : AgentRunner.ref * AgentRunner.Heap :=
  AgentRunner.initialize_agent_system default_settings []
    (Some AgentRunner.AnalysisReport) [].
Definition default_get : AgentRunner.State -> AgentRunner.ref * AgentRunner.State :=
  AgentRunner.get_agent_system default_settings []
    (Some AgentRunner.AnalysisReport).

End Obs.

(* ================================================================== *)
(** ** Reading the poller's passes and the adapters' requests *)
(* ================================================================== *)

Module Views.
Import Py Eff Obs.





(** Every exchange succeeds with the same payload. *)
Definition answering (payload : value) : World :=
  mkWorld (fun _ _ => Ok payload) (fun _ => S754_zero false).

(** Whether the JSON argument of a call, if it has one, decodes. *)
Definition decodes (c : tool_call) : bool :=
  match c with
  | CreateCrawlerTask _ _ (Malformed _ _) => false
  | DetectTrends (Malformed _ _) _ => false
  | _ => true
  end.

(** The configured base URL of the service a call is meant for. *)
Definition service_base (settings : Settings) (c : tool_call) : string :=
  match c with
  | CreateCrawlerTask _ _ _ | GetTaskStatus _ | GetCrawlerStatistics _
  | QueryCrawledPosts _ _ _ _ _ => crawler_api_base settings
  | AnalyzeSensitiveContent _ _ => sensitive_content_api settings
  | AnalyzeSentiment _ _ | ExtractTopics _ _ | DetectTrends _ _ =>
      sentiment_api settings
  end.

(** The calls that only read. *)
Definition reads_only (c : tool_call) : bool :=
  match c with
  | GetTaskStatus _ | GetCrawlerStatistics _ | QueryCrawledPosts _ _ _ _ _ =>
      true
  | _ => false
  end.


(** The four levels with their percentiles. *)
Definition levels : list (string * Z) :=
  [("very_high", 95); ("high", 75); ("medium", 50); ("low", 25)].

(** Reading [benchmarks.percentile] off a result. *)
Definition percentile_of (s : result json_text) : option value :=
  match field s "benchmarks" with
  | Some (VDict entries) => dict_get entries "percentile"
  | _ => None
  end.

End Views.

(* ================================================================== *)
(** ** [api/routers/analysis.py] *)
(* ================================================================== *)

Module Api.
Import Py.

(** An engine is known by the URL it was created for, a session by its key
    and its engine. *)
Record AsyncEngine : Type := mkAsyncEngine { engine_url : string }.

Record SQLAlchemySession : Type := mkSession {
  session_key : string;
  session_engine : AsyncEngine
}.

(** What a run of the agents ends with: an instance of an output model,
    which has [model_dump], or any other object, known by its [str()]. *)
Inductive final_output : Type :=
| OutputModel (m : value)
| OtherOutput (text : string).

Record AnalysisRequest : Type := mkAnalysisRequest {
  request : string;
  session_id : option string;
  max_turns : Z
}.

Record AnalysisResponse : Type := mkAnalysisResponse {
  request_id : string;
  status : string;
  result : option value;
  error : option string
}.

(** What lies outside the module.  [DATABASE_URL] is the environment
    variable, [session_db_url] the setting; [create_async_engine url] and
    [open_session key engine] say with which exception, if any, the engine
    and the [SQLAlchemySession] constructors fail; [Runner_run k ...] is the
    outcome of the [k]-th [Runner.run] of the process; [validate_result m] is
    what the response model makes of an output model given for its
    [Optional[dict]] field [result]. *)
Record Services : Type := mkServices {
  DATABASE_URL : option string;
  session_db_url : string;
  create_async_engine : string -> option exn;
  open_session : string -> AsyncEngine -> option exn;
  Runner_run : nat -> AgentRunner.ref -> string -> SQLAlchemySession -> Z
               -> Py.result final_output;
  validate_result : value -> Py.result value
}.

(** One call of [Runner.run]. *)
Record RunCall : Type := mkRunCall {
  run_agent : AgentRunner.ref;
  run_input : string;
  run_session : SQLAlchemySession;
  run_max_turns : Z
}.

(** The process: the global [_async_engine], the agent module's state and
    the runs made so far, most recent first. *)
Record State : Type := mkState {
  async_engine : option AsyncEngine;
  agents : AgentRunner.State;
  runs : list RunCall
}.

Definition initial_state : State :=
  mkState None AgentRunner.initial_state [].

Definition A (X : Type) : Type := State -> Py.result X * State.

Definition ret {X} (x : X) : A X := fun s => (Ok x, s).
Definition bind {X Y} (c : A X) (k : X -> A Y) : A Y :=
  fun s => match c s with
           | (Ok x, s') => k x s'
           | (Raise e, s') => (Raise e, s')
           end.

(** [try: c  except Exception as e: h(e)] *)
Definition try_except {X} (c : A X) (h : exn -> A X) : A X :=
  fun s => match c s with
           | (Ok x, s') => (Ok x, s')
           | (Raise e, s') => h e s'
           end.

(** [x or d] for an optional string. *)
Definition str_or (x : option string) (d : string) : string :=
  match x with
  | Some s => if truthy x then s else d
  | None => d
  end.

Section WithServices.
Variable settings : Settings.
Variable report_tools : list AgentRunner.tool.
Variable report_output : option AgentRunner.output_model.
Variable services : Services.

(** [os.getenv("DATABASE_URL", settings.session_db_url)] *)
Definition database_url : string :=
  match DATABASE_URL services with
  | Some url => url
  | None => session_db_url services
  end.

Definition get_async_engine : A AsyncEngine :=
  fun s =>
    match async_engine s with
    | None =>
        match create_async_engine services database_url with
        | Some e => (Raise e, s)
        | None =>
            let engine := mkAsyncEngine database_url in
            (Ok engine, mkState (Some engine) (agents s) (runs s))
        end
    | Some engine => (Ok engine, s)
    end.

(** [SQLAlchemySession(session_id, engine=engine, create_tables=True)] *)
Definition new_session (key : string) (engine : AsyncEngine)
  : A SQLAlchemySession :=
  fun s =>
    match open_session services key engine with
    | Some e => (Raise e, s)
    | None => (Ok (mkSession key engine), s)
    end.

(** [get_agent_system()] of [services/agent_runner.py]. *)
Definition get_agent_system : A AgentRunner.ref :=
  fun s =>
    let '(r, ag) :=
      AgentRunner.get_agent_system settings report_tools report_output
        (agents s) in
    (Ok r, mkState (async_engine s) ag (runs s)).

(** [await Runner.run(agent, input=..., session=..., max_turns=...)] *)
Definition run (agent : AgentRunner.ref) (input : string)
    (session : SQLAlchemySession) (turns : Z) : A final_output :=
  fun s =>
    (Runner_run services (List.length (runs s)) agent input session turns,
     mkState (async_engine s) (agents s)
       (mkRunCall agent input session turns :: runs s)).

(** [result.final_output if hasattr(result.final_output, "model_dump")
     else {"output": str(result.final_output)}], as the response model
    receives it. *)
Definition result_field (out : final_output) : Py.result value :=
  match out with
  | OutputModel m => validate_result services m
  | OtherOutput text => Ok (VDict [("output", VStr text)])
  end.

(** [create_analysis(request)]; [object_id] is [id(request)]. *)
Definition create_analysis (object_id : Z) (req : AnalysisRequest)
  : A AnalysisResponse :=
  try_except
    (let session_id :=
       str_or (session_id req) ("session_" ++ str_int object_id) in
     bind get_async_engine (fun engine =>
     bind (new_session session_id engine) (fun session =>
     bind get_agent_system (fun coordinator =>
     bind (run coordinator (request req) session (max_turns req)) (fun out =>
     fun s =>
       match result_field out with
       | Ok r =>
           (Ok (mkAnalysisResponse session_id "completed" (Some r) None), s)
       | Raise e => (Raise e, s)
       end)))))
    (fun e =>
       ret (mkAnalysisResponse (str_or (session_id req) "unknown") "failed"
              None (Some (str_exn e)))).

End WithServices.

(** *** Services used in the examples *)

(** Everything works and every run ends with the text [text]. *)
Definition smooth (text : string) : Services :=
  mkServices None "postgresql+asyncpg://localhost/sessions"
    (fun _ => None) (fun _ _ => None)
    (fun _ _ _ _ _ => Ok (OtherOutput text))
    (fun m => Ok m).

(** The database cannot be reached. *)
Definition no_database : Services :=
  mkServices None "postgresql+asyncpg://localhost/sessions"
    (fun _ => Some (OtherException "connection refused")) (fun _ _ => None)
    (fun _ _ _ _ _ => Ok (OtherOutput "unused"))
    (fun m => Ok m).

(** Every run exceeds its turn budget. *)
Definition out_of_turns : Services :=
  mkServices None "postgresql+asyncpg://localhost/sessions"
    (fun _ => None) (fun _ _ => None)
    (fun _ _ _ _ _ => Raise (OtherException "Max turns (30) exceeded"))
    (fun m => Ok m).

Definition anonymous (text : string) : AnalysisRequest :=
  mkAnalysisRequest text None 30.

Definition create_analysis_default (services : Services)
  : Z -> AnalysisRequest -> A AnalysisResponse :=
  create_analysis Obs.default_settings [] (Some AgentRunner.AnalysisReport)
    services.

End Api.

(* ================================================================== *)
(** ** Properties of the tool adapters *)
(* ================================================================== *)

Import Py Eff Obs.

Ltac unfold_monad :=
  unfold fmap in *;
  unfold try_except, bind, ret, lift, raise, CrawlerTools.send in *.


Section AdapterFacts.
Variable settings : Settings.
Variable world : World.




End AdapterFacts.

(** *** Clamping of numeric arguments *)

Lemma extract_topics_trace (settings : Settings) (world : World)
    (texts : list string) (num_topics : Z) (t : Run) :
  snd (AnalysisTools.extract_topics settings world texts num_topics t)
  = Exchange (AnalysisTools.extract_topics_request settings texts num_topics) :: t.
Proof.
  unfold AnalysisTools.extract_topics. unfold_monad.
  destruct (http world (exchanges t) _) as [v | e]; [reflexivity |].
  destruct (is_HTTPError e); reflexivity.
Qed.

Lemma query_crawled_posts_trace (settings : Settings) (world : World)
    (platform keyword start_time end_time : option string) (limit : Z)
    (t : Run) :
  snd (CrawlerTools.query_crawled_posts settings world platform keyword
         start_time end_time limit t)
  = Exchange (CrawlerTools.query_crawled_posts_request settings platform
                keyword start_time end_time limit) :: t.
Proof.
  unfold CrawlerTools.query_crawled_posts. unfold_monad.
  destruct (http world (exchanges t) _) as [v | e]; [reflexivity |].
  destruct (is_HTTPError e); reflexivity.
Qed.

Lemma dict_get_set_other (entries : list (string * value)) (k k' : string)
    (v : value) :
  String.eqb k' k = false ->
  dict_get (dict_set entries k' v) k = dict_get entries k.
Proof.
  intros Hk. induction entries as [| [k0 v0] rest IH]; simpl.
  - rewrite Hk. reflexivity.
  - destruct (String.eqb k0 k') eqn:E0; simpl.
    + apply String.eqb_eq in E0. subst k0. rewrite Hk. reflexivity.
    + destruct (String.eqb k0 k); [reflexivity | exact IH].
Qed.

Lemma set_if_keeps (key : string) (x : option string)
    (params : list (string * value)) (k : string) :
  String.eqb key k = false ->
  dict_get (CrawlerTools.set_if key x params) k = dict_get params k.
Proof.
  intros Hk. unfold CrawlerTools.set_if.
  destruct x as [s |]; [| reflexivity].
  destruct (truthy (Some s)); [| reflexivity].
  apply dict_get_set_other. exact Hk.
Qed.

(** The optional filters never touch the [limit] entry. *)
Lemma query_params_limit (platform keyword start_time end_time : option string)
    (limit : Z) :
  dict_get (CrawlerTools.query_params platform keyword start_time end_time limit)
    "limit" = Some (VInt (Z.min limit 1000)).
Proof.
  unfold CrawlerTools.query_params.
  repeat (rewrite set_if_keeps by reflexivity). reflexivity.
Qed.

(** C6. Every call of [extract_topics] sends exactly one request, and the
    [num_topics] it carries is [max(3, min(num_topics, 20))], a value between
    3 and 20; a request for 1 topic sends 3 and a request for 50 sends 20. *)
Theorem extract_topics_dispatches_clamped_count :
  (forall settings world texts num_topics t,
     exists r n,
       snd (AnalysisTools.extract_topics settings world texts num_topics t)
         = Exchange r :: t
       /\ body_field r "num_topics" = Some (VInt n)
       /\ n = Z.max 3 (Z.min num_topics 20)
       /\ 3 <= n <= 20)
  /\ (forall settings texts,
        body_field (AnalysisTools.extract_topics_request settings texts 1)
          "num_topics" = Some (VInt 3))
  /\ (forall settings texts,
        body_field (AnalysisTools.extract_topics_request settings texts 50)
          "num_topics" = Some (VInt 20)).
Proof.
  split; [| split]; intros.
  - exists (AnalysisTools.extract_topics_request settings texts num_topics).
    exists (Z.max 3 (Z.min num_topics 20)).
    split; [apply extract_topics_trace |].
    split; [reflexivity |]. split; [reflexivity | lia].
  - reflexivity.
  - reflexivity.
Qed.

(** C4, as stated, fails: a requested limit of 0 is sent unchanged, and 0 is
    not in (0, 1000]. *)
Lemma query_limit_zero_is_dispatched :
  ~ (forall settings world platform keyword start_time end_time limit t,
       exists r n,
         snd (CrawlerTools.query_crawled_posts settings world platform keyword
                start_time end_time limit t) = Exchange r :: t
         /\ param r "limit" = Some (VInt n)
         /\ 0 < n <= 1000).
Proof.
  intros H.
  destruct (H default_settings (failing (HTTPError "down")) None None None None
              0 []) as (r & n & Ht & Hp & Hn).
  rewrite query_crawled_posts_trace in Ht.
  injection Ht as <-. unfold param in Hp. simpl in Hp.
  injection Hp as <-. lia.
Qed.

(** C4, amended. Every call of [query_crawled_posts] sends exactly one
    request whose [limit] is [min(limit, 1000)]: never above 1000, and in
    (0, 1000] whenever the requested limit is positive; a requested 5000 is
    sent as 1000. *)
Theorem query_limit_is_capped_at_1000 :
  (forall settings world platform keyword start_time end_time limit t,
     exists r n,
       snd (CrawlerTools.query_crawled_posts settings world platform keyword
              start_time end_time limit t) = Exchange r :: t
       /\ param r "limit" = Some (VInt n)
       /\ n = Z.min limit 1000
       /\ n <= 1000
       /\ (limit <= 0 \/ 0 < n <= 1000))
  /\ (forall settings platform keyword start_time end_time,
        param (CrawlerTools.query_crawled_posts_request settings platform
                 keyword start_time end_time 5000) "limit"
        = Some (VInt 1000)).
Proof.
  split; intros.
  - exists (CrawlerTools.query_crawled_posts_request settings platform keyword
              start_time end_time limit).
    exists (Z.min limit 1000).
    split; [apply query_crawled_posts_trace |].
    split; [apply query_params_limit |].
    split; [reflexivity |]. lia.
  - unfold param. simpl. apply query_params_limit.
Qed.

(** *** Engagement *)

(** C3. On likes=1000, comments=50, shares=20, views=10000 the tool returns
    total_interactions 1070, engagement_rate 10.7 and level "very_high".  On
    likes=100, comments=10, shares=5, views=0 it returns without raising and
    with total_interactions 115, but [views or 1] has turned the 0 into 1, so
    the engagement_rate is 11500.0 (level "very_high", views reported as 1)
    and not 0. *)
Theorem analyze_engagement_on_spec_inputs :
  (field (AnalysisTools.analyze_engagement 1000 50 20 10000)
     "total_interactions" = Some (VInt 1070)
   /\ field (AnalysisTools.analyze_engagement 1000 50 20 10000)
        "engagement_rate" = Some (VFloat (decimal 107 1))
   /\ field (AnalysisTools.analyze_engagement 1000 50 20 10000)
        "engagement_level" = Some (VStr "very_high"))
  /\ (exists r, AnalysisTools.analyze_engagement 100 10 5 0 = Ok r)
  /\ field (AnalysisTools.analyze_engagement 100 10 5 0)
       "total_interactions" = Some (VInt 115)
  /\ field (AnalysisTools.analyze_engagement 100 10 5 0)
       "engagement_rate" = Some (VFloat (decimal 115000 1))
  /\ field (AnalysisTools.analyze_engagement 100 10 5 0)
       "engagement_rate" <> Some (VInt 0)
  /\ field (AnalysisTools.analyze_engagement 100 10 5 0)
       "engagement_rate" <> Some (VFloat (S754_zero false))
  /\ field (AnalysisTools.analyze_engagement 100 10 5 0)
       "engagement_level" = Some (VStr "very_high")
  /\ field (AnalysisTools.analyze_engagement 100 10 5 0) "metrics"
       = Some (VDict [("likes", VInt 100); ("comments", VInt 10);
                      ("shares", VInt 5); ("views", VInt 1)]).
Proof.
  repeat split; try (vm_compute; reflexivity); try (vm_compute; discriminate).
  eexists. vm_compute. reflexivity.
Qed.

(** With a negative view count the guard [views > 0] does apply and the rate
    is the int 0. *)
Lemma analyze_engagement_negative_views :
  field (AnalysisTools.analyze_engagement 100 10 5 (-3))
    "engagement_rate" = Some (VInt 0).
Proof. vm_compute. reflexivity. Qed.

(** *** Failures become results *)

(** C10. When the exchange of [analyze_sentiment] fails, with an HTTP error
    or with any other exception, the tool returns the error message, the
    [post_id] of the request and the neutral defaults: overall_sentiment
    "neutral", sentiment_score 0.0, no emotions, confidence 0.0.  Apart from
    the [error] entry the record is the one of a neutral analysis. *)
Theorem analyze_sentiment_failure_defaults :
  forall settings world text post_id t e,
    http world (exchanges t)
      (AnalysisTools.analyze_sentiment_request settings text post_id) = Raise e ->
    fst (AnalysisTools.analyze_sentiment settings world text post_id t)
    = Ok (VDict
        [("error", VStr (failure_message "Failed to analyze sentiment: " e));
         ("post_id", VStr post_id);
         ("overall_sentiment", VStr "neutral");
         ("sentiment_score", VFloat (S754_zero false));
         ("emotions", VDict []);
         ("confidence", VFloat (S754_zero false))]).
Proof.
  intros settings world text post_id t e H.
  unfold AnalysisTools.analyze_sentiment, failure_message. unfold_monad.
  rewrite H. destruct (is_HTTPError e); reflexivity.
Qed.

Lemma analyze_sentiment_failure_defaults_witness :
  http (failing (HTTPError "connection refused")) (exchanges [])
    (AnalysisTools.analyze_sentiment_request default_settings "text" "post_123")
  = Raise (HTTPError "connection refused")
  /\ fst (AnalysisTools.analyze_sentiment default_settings
            (failing (HTTPError "connection refused")) "text" "post_123" [])
     = Ok (VDict
         [("error", VStr "Failed to analyze sentiment: connection refused");
          ("post_id", VStr "post_123");
          ("overall_sentiment", VStr "neutral");
          ("sentiment_score", VFloat (S754_zero false));
          ("emotions", VDict []);
          ("confidence", VFloat (S754_zero false))]).
Proof.
  split; [reflexivity |].
  apply (analyze_sentiment_failure_defaults default_settings
           (failing (HTTPError "connection refused")) "text" "post_123" []
           (HTTPError "connection refused")).
  reflexivity.
Defined.

(** Whatever the service does, no adapter raises. *)
Lemma invoke_never_raises (settings : Settings) (world : World)
    (c : tool_call) (t : Run) :
  exists v, fst (invoke settings world c t) = Ok v.
Proof.
  destruct c; simpl;
    unfold CrawlerTools.create_crawler_task, CrawlerTools.get_task_status,
      CrawlerTools.get_crawler_statistics, CrawlerTools.query_crawled_posts,
      AnalysisTools.analyze_sensitive_content, AnalysisTools.analyze_sentiment,
      AnalysisTools.extract_topics, AnalysisTools.detect_trends;
    unfold_monad;
    try (destruct config_json as [cfg | raw msg]; simpl);
    try (destruct post_data_json as [pd | raw msg]; simpl);
    try (destruct (http world (exchanges t) _) as [v | e]; simpl);
    try (destruct (is_HTTPError e); simpl);
    eexists; reflexivity.
Qed.

(** C5, as stated, fails: when the query service is unreachable,
    [query_crawled_posts] for platform "douyin" returns a one-element list.
    The result is not a record: it has no [error] field and nothing of the
    request, the platform included, can be read from it. *)
Lemma query_failure_result_is_a_bare_list :
  fst (invoke default_settings unreachable douyin_query [])
    = Ok (VList [VDict [("error",
                         VStr "Failed to query posts: connection refused")]])
  /\ ~ (forall settings world c t e,
         (forall r, http world (exchanges t) r = Raise e) ->
         exists v msg,
           fst (invoke settings world c t) = Ok v
           /\ carries v "error" (VStr msg))
  /\ ~ (exists v,
         fst (invoke default_settings unreachable douyin_query []) = Ok v
         /\ carries v "platform" (VStr "douyin")).
Proof.
  split; [reflexivity |]. split.
  - intros H.
    destruct (H default_settings unreachable douyin_query []
                (HTTPError "connection refused") (fun _ => eq_refl))
      as (v & msg & Hv & entries & Hd & _).
    simpl in Hv. injection Hv as <-. discriminate Hd.
  - intros (v & Hv & entries & Hd & _).
    simpl in Hv. injection Hv as <-. discriminate Hd.
Qed.

(** C5, amended. No adapter raises, whatever the service does.  When the
    exchange fails with [e], each adapter returns a result that carries the
    error message: [create_crawler_task] with the platform and crawler type
    of the request, [get_task_status] and [get_crawler_statistics] with the
    task id, [analyze_sensitive_content] with the video id and
    [has_violation] set to false, [analyze_sentiment] with the post id and
    the neutral defaults; [query_crawled_posts], [extract_topics] and
    [detect_trends] return a one-element list whose record holds the error
    message alone.  A configuration or post list that does not decode is
    reported the same way, before anything is sent. *)
Theorem adapters_convert_failures :
  forall settings world t,
  (forall c, exists v, fst (invoke settings world c t) = Ok v)
  /\ (forall platform crawler_type raw msg,
        CrawlerTools.create_crawler_task settings world platform crawler_type
          (Malformed raw msg) t
        = (Ok (dumps (VDict
             [("error", VStr ("Unexpected error: " ++ msg));
              ("platform", VStr platform);
              ("crawler_type", VStr crawler_type)])), t))
  /\ (forall raw msg time_window,
        AnalysisTools.detect_trends settings world (Malformed raw msg)
          time_window t
        = (Ok (dumps (VList
             [VDict [("error", VStr ("Unexpected error: " ++ msg))]])), t))
  /\ (forall e, (forall r, http world (exchanges t) r = Raise e) ->
      (forall platform crawler_type config,
         fst (CrawlerTools.create_crawler_task settings world platform
                crawler_type (Encoded config) t)
         = Ok (dumps (VDict
             [("error",
               VStr (failure_message "Failed to create crawler task: " e));
              ("platform", VStr platform);
              ("crawler_type", VStr crawler_type)])))
      /\ (forall task_id,
           fst (CrawlerTools.get_task_status settings world task_id t)
           = Ok (dumps (VDict
               [("error", VStr (failure_message "Failed to get task status: " e));
                ("task_id", VStr task_id)])))
      /\ (forall task_id,
           fst (CrawlerTools.get_crawler_statistics settings world task_id t)
           = Ok (dumps (VDict
               [("error", VStr (failure_message "Failed to get statistics: " e));
                ("task_id", VStr task_id)])))
      /\ (forall video_url video_id,
           fst (AnalysisTools.analyze_sensitive_content settings world
                  video_url video_id t)
           = Ok (VDict
               [("error",
                 VStr (failure_message "Failed to analyze sensitive content: " e));
                ("video_id", VStr video_id);
                ("has_violation", VBool false)]))
      /\ (forall text post_id,
           fst (AnalysisTools.analyze_sentiment settings world text post_id t)
           = Ok (VDict
               [("error", VStr (failure_message "Failed to analyze sentiment: " e));
                ("post_id", VStr post_id);
                ("overall_sentiment", VStr "neutral");
                ("sentiment_score", VFloat (S754_zero false));
                ("emotions", VDict []);
                ("confidence", VFloat (S754_zero false))]))
      /\ (forall platform keyword start_time end_time limit,
           fst (CrawlerTools.query_crawled_posts settings world platform
                  keyword start_time end_time limit t)
           = Ok (dumps (VList
               [VDict [("error",
                        VStr (failure_message "Failed to query posts: " e))]])))
      /\ (forall texts num_topics,
           fst (AnalysisTools.extract_topics settings world texts num_topics t)
           = Ok (dumps (VList
               [VDict [("error",
                        VStr (failure_message "Failed to extract topics: " e))]])))
      /\ (forall post_data time_window,
           fst (AnalysisTools.detect_trends settings world (Encoded post_data)
                  time_window t)
           = Ok (dumps (VList
               [VDict [("error",
                        VStr (failure_message "Failed to detect trends: " e))]])))).
Proof.
  intros settings world t.
  split; [intros c; apply invoke_never_raises |].
  split; [reflexivity |]. split; [reflexivity |].
  intros e Hfail.
  unfold CrawlerTools.create_crawler_task, CrawlerTools.get_task_status,
    CrawlerTools.get_crawler_statistics, CrawlerTools.query_crawled_posts,
    AnalysisTools.analyze_sensitive_content, AnalysisTools.analyze_sentiment,
    AnalysisTools.extract_topics, AnalysisTools.detect_trends, failure_message.
  unfold_monad. simpl.
  repeat split; intros; rewrite Hfail; destruct (is_HTTPError e); reflexivity.
Qed.

Lemma adapters_convert_failures_witness :
  (forall r, http (failing (HTTPError "timed out")) (exchanges []) r
             = Raise (HTTPError "timed out"))
  /\ fst (CrawlerTools.create_crawler_task default_settings
            (failing (HTTPError "timed out")) "douyin" "search"
            (Encoded (VDict [("keywords", VList [VStr "ai"])])) [])
     = Ok (dumps (VDict
         [("error", VStr "Failed to create crawler task: timed out");
          ("platform", VStr "douyin");
          ("crawler_type", VStr "search")]))
  /\ fst (AnalysisTools.analyze_sensitive_content default_settings
            (failing (HTTPError "timed out")) "https://example.com/video.mp4"
            "7123456789" [])
     = Ok (VDict
         [("error", VStr "Failed to analyze sensitive content: timed out");
          ("video_id", VStr "7123456789");
          ("has_violation", VBool false)]).
Proof.
  split; [reflexivity |].
  destruct (adapters_convert_failures default_settings
              (failing (HTTPError "timed out")) [])
    as (_ & _ & _ & H).
  destruct (H (HTTPError "timed out") (fun _ => eq_refl))
    as (Hcreate & _ & _ & Hsens & _).
  split; [apply Hcreate | apply Hsens].
Defined.

(* ================================================================== *)
(** ** Properties of the completion poller *)
(* ================================================================== *)

Section PollerFacts.
Variable settings : Settings.
Variable world : World.

Let poll_once := CrawlerTools.poll_once settings world.
Let wait_loop := CrawlerTools.wait_loop settings world.








End PollerFacts.







(* ================================================================== *)
(** ** Properties of the pipeline assembly *)
(* ================================================================== *)

Module AgentRunnerFacts.
Import AgentRunner.
Local Open Scope list_scope.
Local Open Scope nat_scope.

(** *** The heap only grows *)

Lemma lookup_old (h l : Heap) (a : ref) (ag : Agent) :
  nth_error h a = Some ag -> nth_error (h ++ l) a = Some ag.
Proof.
  intros H. rewrite nth_error_app1; [exact H |].
  apply nth_error_Some. rewrite H. discriminate.
Qed.

Lemma lookup_new (h l : Heap) (k : nat) :
  nth_error (h ++ l) (k + List.length h) = nth_error l k.
Proof.
  rewrite nth_error_app2 by lia. f_equal. lia.
Qed.

Lemma all_some_map_weaken {A B} (f g : A -> option B) (l : list A)
    (ys : list B) :
  (forall x y, In x l -> f x = Some y -> g x = Some y) ->
  all_some (map f l) = Some ys ->
  all_some (map g l) = Some ys.
Proof.
  revert ys. induction l as [| x l IH]; intros ys Hfg H; simpl in *.
  - exact H.
  - destruct (f x) as [y |] eqn:Hx; [| discriminate].
    rewrite (Hfg x y (or_introl eq_refl) Hx).
    destruct (all_some (map f l)) as [ys' |] eqn:Hl; [| discriminate].
    rewrite (IH ys'); auto.
Qed.

(** An instance keeps its shape when more agents are built. *)
Lemma shape_of_app (d : nat) (h l : Heap) :
  forall r sh, shape_of d h r = Some sh -> shape_of d (h ++ l) r = Some sh.
Proof.
  induction d as [| d IH]; intros r sh H; simpl in *; [discriminate |].
  destruct (nth_error h r) as [ag |] eqn:Hr; [| discriminate].
  rewrite (lookup_old h l r ag Hr).
  destruct (all_some (map (shape_of d h) (handoffs ag))) as [ds |] eqn:Hds;
    [| discriminate].
  rewrite (all_some_map_weaken (shape_of d h) (shape_of d (h ++ l)) _ ds);
    auto.
Qed.

(** *** Handoffs point backwards *)

Lemma ordered_nil : ordered [].
Proof. intros a ag H. destruct a; discriminate H. Qed.

Lemma ordered_snoc (h : Heap) (ag : Agent) :
  ordered h ->
  Forall (fun b => b < List.length h) (handoffs ag) ->
  ordered (h ++ [ag]).
Proof.
  intros Hord Hag a ag' Hlook.
  destruct (Nat.lt_ge_cases a (List.length h)) as [Hlt | Hge].
  - rewrite nth_error_app1 in Hlook by exact Hlt. eapply Hord; eauto.
  - rewrite nth_error_app2 in Hlook by exact Hge.
    destruct (a - List.length h) as [| k] eqn:Hk; simpl in Hlook.
    + injection Hlook as <-.
      eapply Forall_impl; [| exact Hag]. simpl. intros b Hb. lia.
    + destruct k; discriminate Hlook.
Qed.

Lemma edge_backwards (h : Heap) (a b : ref) :
  ordered h -> edge h a b -> b < a.
Proof.
  intros Hord (ag & Hlook & Hin).
  pose proof (Hord a ag Hlook) as Hall.
  rewrite Forall_forall in Hall. apply Hall. exact Hin.
Qed.

Lemma path_backwards (h : Heap) (a b : ref) :
  ordered h -> path h a b -> b < a.
Proof.
  intros Hord Hp. induction Hp as [a b He | a b c He Hp IH].
  - eapply edge_backwards; eauto.
  - pose proof (edge_backwards h a b Hord He). lia.
Qed.

(** A heap whose handoffs all point backwards has no handoff cycle. *)
Lemma ordered_acyclic (h : Heap) : ordered h -> acyclic h.
Proof.
  intros Hord a Hp. apply (path_backwards h a a Hord) in Hp. lia.
Qed.

Lemma nodes_of_bound (d : nat) (h : Heap) :
  ordered h -> forall r, Forall (fun a => a <= r) (nodes_of d h r).
Proof.
  intros Hord. induction d as [| d IH]; intros r; simpl; [constructor |].
  constructor; [lia |].
  apply Forall_forall. intros a Ha.
  apply in_flat_map in Ha. destruct Ha as (b & Hb & Ha).
  unfold handoffs_of in Hb.
  destruct (nth_error h r) as [ag |] eqn:Hr; [| destruct Hb].
  pose proof (Hord r ag Hr) as Hall. rewrite Forall_forall in Hall.
  specialize (Hall b Hb).
  pose proof (IH b) as Hsub. rewrite Forall_forall in Hsub.
  specialize (Hsub a Ha). lia.
Qed.

(** *** One assembly *)

Section Assembly.
Variable settings : Settings.
Variable report_tools : list tool.
Variable report_output : option output_model.

Let initialize := initialize_agent_system settings report_tools report_output.
Let get := get_agent_system settings report_tools report_output.
Let agents := pipeline_agents settings report_tools report_output.
Let the_shape := pipeline_shape settings report_tools report_output.

(** Assembly appends the five agents, terminal agent first, and returns the
    address of the last one, the coordinator. *)
Lemma initialize_eq (h : Heap) :
  initialize h = (4 + List.length h, h ++ agents (List.length h)).
Proof.
  unfold initialize, initialize_agent_system, create_decision_support_agent,
    create_report_generation_agent, create_content_analysis_agent,
    create_data_collection_agent, create_coordinator_agent, new_agent.
  cbv zeta iota beta.
  repeat rewrite length_app. simpl List.length.
  repeat rewrite Nat.add_1_r.
  repeat rewrite <- app_assoc. reflexivity.
Qed.

Lemma agents_length (base : ref) : List.length (agents base) = 5.
Proof. reflexivity. Qed.

Lemma ordered_initialize (h : Heap) :
  ordered h -> ordered (snd (initialize h)).
Proof.
  intros Hord. rewrite initialize_eq. simpl snd.
  unfold agents, pipeline_agents.
  change (h ++ ?a :: ?b :: ?c :: ?d :: [?e])
    with (h ++ [a] ++ [b] ++ [c] ++ [d] ++ [e]).
  repeat rewrite app_assoc.
  repeat (apply ordered_snoc;
          [| repeat rewrite length_app; simpl;
             repeat constructor; lia]).
  exact Hord.
Qed.

Lemma shape_of_step (d : nat) (h : Heap) (r : ref) (ag : Agent)
    (ds : list shape) :
  nth_error h r = Some ag ->
  all_some (map (shape_of d h) (handoffs ag)) = Some ds ->
  shape_of (S d) h r
  = Some (Shape (name ag) (model ag) (instructions ag) (tools ag)
            (output_type ag) ds).
Proof.
  intros Hr Hds. cbn [shape_of]. rewrite Hr, Hds. reflexivity.
Qed.

(** The shape of a freshly assembled pipeline. *)
Lemma shape_of_fresh (h : Heap) :
  shape_of pipeline_depth (h ++ agents (List.length h)) (4 + List.length h)
  = Some the_shape.
Proof.
  set (n := List.length h). set (H := h ++ agents n).
  assert (L : forall k ag,
             nth_error (agents n) k = Some ag ->
             nth_error H (k + n) = Some ag).
  { intros k ag E. unfold H, n. rewrite lookup_new. exact E. }
  assert (S0 : forall d,
             shape_of (S d) H n
             = Some (decision_support_shape settings)).
  { intros d. exact (shape_of_step d H n _ [] (L 0 _ eq_refl) eq_refl). }
  assert (S1 : forall d,
             shape_of (S (S d)) H (S n)
             = Some (report_generation_shape settings report_tools
                       report_output)).
  { intros d. refine (shape_of_step (S d) H (S n) _ [_] (L 1 _ eq_refl) _).
    cbn [handoffs map all_some]. rewrite S0. reflexivity. }
  assert (S2 : forall d,
             shape_of (S (S (S d))) H (S (S n))
             = Some (content_analysis_shape settings report_tools
                       report_output)).
  { intros d.
    refine (shape_of_step (S (S d)) H (S (S n)) _ [_] (L 2 _ eq_refl) _).
    cbn [handoffs map all_some]. rewrite (S1 d). reflexivity. }
  assert (S3 : forall d,
             shape_of (S (S (S (S d)))) H (S (S (S n)))
             = Some (data_collection_shape settings report_tools
                       report_output)).
  { intros d.
    refine (shape_of_step (S (S (S d))) H (S (S (S n))) _ [_] (L 3 _ eq_refl) _).
    cbn [handoffs map all_some]. rewrite (S2 d). reflexivity. }
  refine (shape_of_step 4 H (4 + n) _ [_; _] (L 4 _ eq_refl) _).
  cbn [handoffs map all_some]. rewrite (S3 0), (S2 1). reflexivity.
Qed.

(** Below a freshly built coordinator there are fresh agents only. *)
Lemma handoffs_of_fresh (h : Heap) (r : ref) :
  List.length h <= r ->
  Forall (fun b => List.length h <= b)
    (handoffs_of (h ++ agents (List.length h)) r).
Proof.
  intros Hr. unfold handoffs_of. rewrite nth_error_app2 by exact Hr.
  destruct (r - List.length h) as [| [| [| [| [| k]]]]]; simpl;
    repeat constructor; try lia.
  destruct k; simpl; constructor.
Qed.

Lemma nodes_of_fresh (d : nat) (h : Heap) :
  forall r, List.length h <= r ->
    Forall (fun a => List.length h <= a)
      (nodes_of d (h ++ agents (List.length h)) r).
Proof.
  induction d as [| d IH]; intros r Hr; simpl; [constructor |].
  constructor; [exact Hr |].
  apply Forall_forall. intros a Ha.
  apply in_flat_map in Ha. destruct Ha as (b & Hb & Ha).
  pose proof (handoffs_of_fresh h r Hr) as Hall.
  rewrite Forall_forall in Hall. specialize (Hall b Hb).
  pose proof (IH b Hall) as Hsub. rewrite Forall_forall in Hsub.
  apply Hsub. exact Ha.
Qed.

(** *** The cached instance *)

Lemma get_cached (s : State) (r : ref) :
  agent_system s = Some r -> get s = (r, s).
Proof.
  intros H. unfold get, get_agent_system. rewrite H. reflexivity.
Qed.

Lemma get_fresh (s : State) :
  agent_system s = None ->
  get s = (4 + List.length (heap s),
           mkState (heap s ++ agents (List.length (heap s)))
             (Some (4 + List.length (heap s)))).
Proof.
  intros H. unfold get, get_agent_system. rewrite H.
  fold initialize. rewrite initialize_eq. reflexivity.
Qed.

Lemma get_caches (s : State) :
  agent_system (snd (get s)) = Some (fst (get s)).
Proof.
  destruct (agent_system s) as [r |] eqn:H.
  - rewrite (get_cached s r H). exact H.
  - rewrite (get_fresh s H). reflexivity.
Qed.

Lemma consistent_reachable (s : State) :
  reachable settings report_tools report_output s ->
  consistent settings report_tools report_output s.
Proof.
  intros Hs. induction Hs as [| s Hs IH | s Hs IH | s Hs IH].
  - split; [apply ordered_nil | intros r H; discriminate H].
  - fold get. destruct IH as [Hord Hc].
    destruct (agent_system s) as [r |] eqn:H.
    + rewrite (get_cached s r H). unfold consistent. cbn [heap agent_system snd fst].
      split; [exact Hord | rewrite H; exact Hc].
    + rewrite (get_fresh s H). unfold consistent. cbn [heap agent_system snd fst]. split.
      * pose proof (ordered_initialize (heap s) Hord) as Ho.
        rewrite initialize_eq in Ho. exact Ho.
      * intros r Hr. injection Hr as <-. split.
        -- rewrite length_app, agents_length. lia.
        -- apply shape_of_fresh.
  - destruct IH as [Hord _]. split; [exact Hord |].
    intros r H. discriminate H.
  - fold initialize. rewrite initialize_eq.
    destruct IH as [Hord Hc]. unfold consistent. cbn [heap agent_system snd fst]. split.
    + pose proof (ordered_initialize (heap s) Hord) as Ho.
      rewrite initialize_eq in Ho. exact Ho.
    + intros r Hr. destruct (Hc r Hr) as [Hlt Hsh]. split.
      * rewrite length_app. lia.
      * apply shape_of_app. exact Hsh.
Qed.

End Assembly.

End AgentRunnerFacts.

Import AgentRunner AgentRunnerFacts.

(** C7. In every state the module can reach, two successive calls of
    [get_agent_system] return the same instance and the second changes
    nothing.  After [reset_agent_system] the next call returns another
    instance: a different address, the same shape as the first, built from
    five new agents, none of which belongs to the first instance. *)
Theorem get_agent_system_is_a_resettable_singleton :
  forall settings report_tools report_output s,
    reachable settings report_tools report_output s ->
    let get := get_agent_system settings report_tools report_output in
    let r1 := fst (get s) in
    let s1 := snd (get s) in
    let r2 := fst (get s1) in
    let s2 := snd (get s1) in
    let s3 := reset_agent_system s2 in
    let r3 := fst (get s3) in
    let s4 := snd (get s3) in
    (r2 = r1 /\ s2 = s1)
    /\ r3 <> r1
    /\ shape_of pipeline_depth (heap s4) r3
       = shape_of pipeline_depth (heap s4) r1
    /\ shape_of pipeline_depth (heap s4) r3
       = Some (pipeline_shape settings report_tools report_output)
    /\ List.length (heap s4) = (5 + List.length (heap s3))%nat
    /\ Forall (fun a => (List.length (heap s3) <= a)%nat)
         (nodes_of pipeline_depth (heap s4) r3)
    /\ Forall (fun a => (a < List.length (heap s3))%nat)
         (nodes_of pipeline_depth (heap s4) r1).
Proof.
  intros settings report_tools report_output s Hs get r1 s1 r2 s2 s3 r3 s4.
  assert (Hs1 : reachable settings report_tools report_output s1)
    by (apply reach_get; exact Hs).
  pose proof (consistent_reachable _ _ _ s1 Hs1) as [Hord1 Hc1].
  pose proof (get_caches settings report_tools report_output s) as Hcache.
  fold get in Hcache. fold r1 s1 in Hcache.
  destruct (Hc1 r1 Hcache) as [Hlt1 Hsh1].
  pose proof (get_cached settings report_tools report_output s1 r1 Hcache)
    as Hget1.
  fold get in Hget1.
  assert (E2 : r2 = r1) by (unfold r2; rewrite Hget1; reflexivity).
  assert (Es2 : s2 = s1) by (unfold s2; rewrite Hget1; reflexivity).
  assert (Hget3 : get s3
                  = ((4 + List.length (heap s1))%nat,
                     mkState
                       (heap s1 ++ pipeline_agents settings report_tools
                                     report_output (List.length (heap s1)))%list
                       (Some (4 + List.length (heap s1))%nat))).
  { unfold s3. rewrite Es2. unfold get.
    rewrite (get_fresh settings report_tools report_output
               (reset_agent_system s1) eq_refl).
    reflexivity. }
  assert (H3 : heap s3 = heap s1) by (unfold s3; rewrite Es2; reflexivity).
  unfold r3, s4. rewrite Hget3, H3. cbn [fst snd heap].
  split; [split; assumption |].
  split; [lia |].
  pose proof (shape_of_fresh settings report_tools report_output (heap s1))
    as Hfresh.
  split; [| split; [exact Hfresh |]].
  - rewrite Hfresh. symmetry. apply shape_of_app. exact Hsh1.
  - split.
    + rewrite length_app. simpl. lia.
    + split.
      * apply nodes_of_fresh. lia.
      * assert (Hord4 : ordered
                          (heap s1 ++ pipeline_agents settings report_tools
                             report_output (List.length (heap s1)))%list).
        { pose proof (ordered_initialize settings report_tools report_output
                        (heap s1) Hord1) as Ho.
          rewrite initialize_eq in Ho. exact Ho. }
        eapply Forall_impl; [| apply (nodes_of_bound _ _ Hord4 r1)].
        simpl. intros a Ha. lia.
Qed.

Lemma get_agent_system_is_a_resettable_singleton_witness :
  reachable default_settings [] (Some AnalysisReport) initial_state
  /\ fst (default_get initial_state) = 4%nat
  /\ fst (default_get (snd (default_get initial_state)))
     = fst (default_get initial_state)
  /\ fst (default_get
            (reset_agent_system
               (snd (default_get (snd (default_get initial_state))))))
     <> fst (default_get initial_state).
Proof.
  split; [apply reach_import |].
  split; [reflexivity |].
  destruct (get_agent_system_is_a_resettable_singleton default_settings []
              (Some AnalysisReport) initial_state
              (reach_import default_settings [] (Some AnalysisReport)))
    as ((E & _) & N & _).
  split; [exact E | exact N].
Defined.

(** C8. Assembling a pipeline on a heap whose handoffs point backwards
    creates five agents in the order Decision Support, Report Generation,
    Content Analysis, Data Collection, Coordinator, and returns the last.
    The Coordinator has exactly two handoffs, to Data Collection and to
    Content Analysis; Decision Support has none; nothing hands off to the
    Coordinator, while each of the other four is handed off to from within
    the pipeline; every handoff still points to an agent built earlier, so
    the handoff graph has no cycle. *)
Theorem initialize_agent_system_builds_a_dag :
  forall settings report_tools report_output h,
    ordered h ->
    let built := initialize_agent_system settings report_tools report_output h in
    let c := fst built in
    let h' := snd built in
    let ds := List.length h in
    let rg := S ds in
    let ca := S rg in
    let dc := S ca in
    (c = S dc /\ List.length h' = S c
     /\ forall a, (a < List.length h)%nat -> nth_error h' a = nth_error h a)
    /\ (name_of h' c = Some "Coordinator"
        /\ handoffs_of h' c = [dc; ca]
        /\ name_of h' dc = Some "Data Collection"
        /\ name_of h' ca = Some "Content Analysis"
        /\ dc <> ca)
    /\ (name_of h' ds = Some "Decision Support" /\ handoffs_of h' ds = [])
    /\ name_of h' rg = Some "Report Generation"
    /\ ((forall a, ~ edge h' a c)
        /\ edge h' c dc /\ edge h' c ca /\ edge h' dc ca
        /\ edge h' ca rg /\ edge h' rg ds)
    /\ ordered h'
    /\ acyclic h'.
Proof.
  intros settings report_tools report_output h Hord built c h' ds rg ca dc.
  pose proof (initialize_eq settings report_tools report_output h) as E.
  fold built in E.
  assert (Ec : c = (4 + List.length h)%nat) by (unfold c; rewrite E; reflexivity).
  assert (Eh : h' = (h ++ pipeline_agents settings report_tools report_output
                            (List.length h))%list)
    by (unfold h'; rewrite E; reflexivity).
  assert (Hord' : ordered h').
  { pose proof (ordered_initialize settings report_tools report_output h Hord)
      as Ho. exact Ho. }
  assert (L : forall k, nth_error h' (k + List.length h)
                        = nth_error (pipeline_agents settings report_tools
                                       report_output (List.length h)) k).
  { intros k. rewrite Eh. apply lookup_new. }
  assert (Hedge : forall k ag b,
             nth_error (pipeline_agents settings report_tools report_output
                          (List.length h)) k = Some ag ->
             In b (handoffs ag) -> edge h' (k + List.length h)%nat b).
  { intros k ag b Hk Hb. exists ag. split; [rewrite L; exact Hk | exact Hb]. }
  split; [split; [| split] |].
  - rewrite Ec. reflexivity.
  - rewrite Eh, Ec, length_app. simpl. unfold ds. lia.
  - intros a Ha. rewrite Eh. apply nth_error_app1. exact Ha.
  - split; [| split; [| split; [| split; [| split]]]].
    + rewrite Ec. unfold name_of, handoffs_of. rewrite (L 4%nat).
      repeat split; try reflexivity.
      * change dc with (3 + List.length h)%nat.
        rewrite (L 3%nat). reflexivity.
      * change ca with (2 + List.length h)%nat.
        rewrite (L 2%nat). reflexivity.
      * unfold dc. lia.
    + unfold name_of, handoffs_of.
      change ds with (0 + List.length h)%nat.
      rewrite (L 0%nat). split; reflexivity.
    + unfold name_of. change rg with (1 + List.length h)%nat.
      rewrite (L 1%nat). reflexivity.
    + split; [| repeat split].
      * intros a He. pose proof (edge_backwards h' a c Hord' He) as Hlt.
        destruct He as (ag & Hlook & _).
        assert (a < List.length h')%nat as Hbound
          by (apply nth_error_Some; rewrite Hlook; discriminate).
        rewrite Eh, length_app in Hbound. simpl in Hbound. lia.
      * rewrite Ec. eapply (Hedge 4%nat); [reflexivity | simpl; auto].
      * rewrite Ec. eapply (Hedge 4%nat); [reflexivity | simpl; auto].
      * eapply (Hedge 3%nat); [reflexivity | simpl; auto].
      * eapply (Hedge 2%nat); [reflexivity | simpl; auto].
      * eapply (Hedge 1%nat); [reflexivity | simpl; auto].
    + exact Hord'.
    + apply ordered_acyclic. exact Hord'.
Qed.

Lemma initialize_agent_system_builds_a_dag_witness :
  ordered []
  /\ fst first_pipeline = 4%nat
  /\ handoffs_of (snd first_pipeline) 4%nat = [3; 2]%nat
  /\ handoffs_of (snd first_pipeline) 0%nat = []
  /\ acyclic (snd first_pipeline).
Proof.
  split; [apply ordered_nil |].
  destruct (initialize_agent_system_builds_a_dag default_settings []
              (Some AnalysisReport) [] ordered_nil)
    as ((Hc & _) & (_ & Hco & _) & (_ & Hds) & _ & _ & _ & Hacyc).
  split; [exact Hc |].
  split; [exact Hco |].
  split; [exact Hds | exact Hacyc].
Defined.

(* ================================================================== *)
(** ** Further properties of the completion poller *)
(* ================================================================== *)

Import Views.

Section PassFacts.
Variable poll_interval : Z.
Variable req : request.





End PassFacts.













(* ================================================================== *)
(** ** Further properties of the adapters *)
(* ================================================================== *)

(** X5. The query sent by [query_crawled_posts] has the [limit] parameter
    first and, after it and in this order, [platform], [keyword],
    [start_time] and [end_time], each one present exactly when the argument
    was given and is not the empty string, and then with the value given. *)
Theorem query_sends_the_filters_that_are_not_empty :
  forall settings platform keyword start_time end_time limit,
    let r := CrawlerTools.query_crawled_posts_request settings platform
               keyword start_time end_time limit in
    let value_sent (x : option string) :=
      if truthy x then option_map VStr x else None in
    let key_sent (k : string) (x : option string) :=
      if truthy x then [k] else [] in
    param r "platform" = value_sent platform
    /\ param r "keyword" = value_sent keyword
    /\ param r "start_time" = value_sent start_time
    /\ param r "end_time" = value_sent end_time
    /\ map fst (req_params r)
       = ("limit" :: key_sent "platform" platform
            ++ key_sent "keyword" keyword
            ++ key_sent "start_time" start_time
            ++ key_sent "end_time" end_time)%list.
Proof.
  intros settings platform keyword start_time end_time limit.
  cbv zeta. unfold param, CrawlerTools.query_crawled_posts_request,
    CrawlerTools.query_params, CrawlerTools.set_if, truthy.
  cbn [req_params].
  destruct platform as [p |], keyword as [k |], start_time as [s |],
    end_time as [e |];
    repeat match goal with
           | |- context [String.eqb ?x ""] => destruct (String.eqb x "")
           end;
    repeat split; reflexivity.
Qed.

Lemma starts_with_app (p s : string) : starts_with p (p ++ s) = true.
Proof.
  induction p as [| a p IH]; [reflexivity |].
  simpl. rewrite Ascii.eqb_refl. exact IH.
Qed.

(** X6. A call of an adapter performs at most one exchange and no other
    effect: none when its JSON argument does not decode, otherwise exactly
    one, whatever the outcome.  The request goes to the base URL configured
    for the service of the call, as a GET without body for the calls that
    read (status, statistics, query) and as a POST with a JSON body for the
    others. *)
Theorem adapter_makes_one_request_to_its_service :
  forall settings world c t,
    (decodes c = false /\ snd (invoke settings world c t) = t)
    \/ (decodes c = true
        /\ exists r,
             snd (invoke settings world c t) = Exchange r :: t
             /\ starts_with (service_base settings c) (req_url r) = true
             /\ (if reads_only c
                 then req_method r = GET /\ req_body r = None
                 else req_method r = POST /\ exists b, req_body r = Some b)).
Proof.
  intros settings world c t.
  destruct c as [p ct cfg | id | id | p k s e l | u id | txt id | txts n
                | js w]; cbn [invoke].
  - destruct cfg as [cfg | raw msg].
    + right. split; [reflexivity |].
      exists (CrawlerTools.create_crawler_task_request settings p ct cfg).
      split; [| split; [apply starts_with_app |
                        split; [reflexivity | eexists; reflexivity]]].
      unfold CrawlerTools.create_crawler_task. unfold_monad. cbn [loads].
      destruct (http world (exchanges t) _) as [v | x]; [reflexivity |].
      destruct (is_HTTPError x); reflexivity.
    + left. split; reflexivity.
  - right. split; [reflexivity |].
    exists (CrawlerTools.get_task_status_request settings id).
    split; [| split; [apply starts_with_app | split; reflexivity]].
    unfold CrawlerTools.get_task_status. unfold_monad.
    destruct (http world (exchanges t) _) as [v | x]; [reflexivity |].
    destruct (is_HTTPError x); reflexivity.
  - right. split; [reflexivity |].
    exists (CrawlerTools.get_crawler_statistics_request settings id).
    split; [| split; [apply starts_with_app | split; reflexivity]].
    unfold CrawlerTools.get_crawler_statistics. unfold_monad.
    destruct (http world (exchanges t) _) as [v | x]; [reflexivity |].
    destruct (is_HTTPError x); reflexivity.
  - right. split; [reflexivity |].
    exists (CrawlerTools.query_crawled_posts_request settings p k s e l).
    split; [| split; [apply starts_with_app | split; reflexivity]].
    unfold CrawlerTools.query_crawled_posts. unfold_monad.
    destruct (http world (exchanges t) _) as [v | x]; [reflexivity |].
    destruct (is_HTTPError x); reflexivity.
  - right. split; [reflexivity |].
    exists (AnalysisTools.analyze_sensitive_content_request settings u id).
    split; [| split; [apply starts_with_app |
                      split; [reflexivity | eexists; reflexivity]]].
    unfold AnalysisTools.analyze_sensitive_content. unfold_monad.
    destruct (http world (exchanges t) _) as [v | x]; [reflexivity |].
    destruct (is_HTTPError x); reflexivity.
  - right. split; [reflexivity |].
    exists (AnalysisTools.analyze_sentiment_request settings txt id).
    split; [| split; [apply starts_with_app |
                      split; [reflexivity | eexists; reflexivity]]].
    unfold AnalysisTools.analyze_sentiment. unfold_monad.
    destruct (http world (exchanges t) _) as [v | x]; [reflexivity |].
    destruct (is_HTTPError x); reflexivity.
  - right. split; [reflexivity |].
    exists (AnalysisTools.extract_topics_request settings txts n).
    split; [| split; [apply starts_with_app |
                      split; [reflexivity | eexists; reflexivity]]].
    unfold AnalysisTools.extract_topics. unfold_monad.
    destruct (http world (exchanges t) _) as [v | x]; [reflexivity |].
    destruct (is_HTTPError x); reflexivity.
  - destruct js as [pd | raw msg].
    + right. split; [reflexivity |].
      exists (AnalysisTools.detect_trends_request settings pd w).
      split; [| split; [apply starts_with_app |
                        split; [reflexivity | eexists; reflexivity]]].
      unfold AnalysisTools.detect_trends. unfold_monad. cbn [loads].
      destruct (http world (exchanges t) _) as [v | x]; [reflexivity |].
      destruct (is_HTTPError x); reflexivity.
    + left. split; reflexivity.
Qed.

(** X7. An adapter hands on what the service answered: when the exchange
    succeeds, the payload is the result of the call, unchanged and
    unchecked, whatever its shape. *)
Theorem adapter_returns_the_payload_unchanged :
  forall settings world c t payload,
    decodes c = true ->
    (forall r, http world (exchanges t) r = Ok payload) ->
    fst (invoke settings world c t) = Ok payload.
Proof.
  intros settings world c t payload Hd Hok.
  destruct c as [p ct cfg | id | id | p k s e l | u id | txt id | txts n
                | js w]; cbn [invoke];
    try (destruct cfg as [cfg | raw msg]; [| discriminate Hd]);
    try (destruct js as [pd | raw msg]; [| discriminate Hd]);
    unfold CrawlerTools.create_crawler_task, CrawlerTools.get_task_status,
      CrawlerTools.get_crawler_statistics, CrawlerTools.query_crawled_posts,
      AnalysisTools.analyze_sensitive_content, AnalysisTools.analyze_sentiment,
      AnalysisTools.extract_topics, AnalysisTools.detect_trends;
    unfold_monad; cbn [loads]; rewrite Hok; reflexivity.
Qed.

Lemma adapter_returns_the_payload_unchanged_witness :
  decodes (AnalyzeSentiment "text" "post_1") = true
  /\ (forall r, http (answering (VList [VInt 1])) (exchanges []) r
                = Ok (VList [VInt 1]))
  /\ fst (invoke default_settings (answering (VList [VInt 1]))
            (AnalyzeSentiment "text" "post_1") [])
     = Ok (VList [VInt 1]).
Proof.
  split; [reflexivity |]. split; [reflexivity |].
  apply (adapter_returns_the_payload_unchanged default_settings
           (answering (VList [VInt 1])) (AnalyzeSentiment "text" "post_1") []
           (VList [VInt 1]) eq_refl (fun _ => eq_refl)).
Defined.

(* ================================================================== *)
(** ** Further properties of [analyze_engagement] *)
(* ================================================================== *)

Lemma int_or_zero (n : Z) : int_or n 0 = n.
Proof.
  unfold int_or. destruct (n =? 0) eqn:E; [| reflexivity].
  apply Z.eqb_eq in E. symmetry. exact E.
Qed.

Lemma int_or_one (n : Z) : int_or n 1 = if n =? 0 then 1 else n.
Proof. reflexivity. Qed.















(** What a returned result is made of. *)
Lemma analyze_engagement_inv (likes comments shares views : Z)
    (r : json_text) :
  AnalysisTools.analyze_engagement likes comments shares views = Ok r ->
  exists er level percentile er2 ir2 va,
    AnalysisTools.level_of er = (level, percentile)
    /\ r = Encoded (VDict
         [("engagement_rate", er2);
          ("interaction_rate", ir2);
          ("engagement_level", VStr level);
          ("total_interactions", VInt (likes + comments + shares));
          ("metrics", VDict [("likes", VInt likes);
                             ("comments", VInt comments);
                             ("shares", VInt shares);
                             ("views", VInt (if views =? 0 then 1 else views))]);
          ("benchmarks",
           VDict [("platform_average", VFloat AnalysisTools.platform_avg);
                  ("percentile", VInt percentile);
                  ("vs_average", va)])]).
Proof.
  unfold AnalysisTools.analyze_engagement, AnalysisTools.engagement_result.
  rewrite !int_or_zero, int_or_one.
  destruct (AnalysisTools.rate (likes + comments + shares) _) as [er | e];
    cbn [rbind]; [| discriminate].
  destruct (AnalysisTools.rate (comments + shares) _) as [ir | e];
    cbn [rbind]; [| discriminate].
  destruct (AnalysisTools.level_of er) as [level percentile] eqn:Hl.
  destruct (round er 2) as [er2 | e]; cbn [rbind]; [| discriminate].
  destruct (round ir 2) as [ir2 | e]; cbn [rbind]; [| discriminate].
  destruct (AnalysisTools.vs_average er) as [va | e]; cbn [rbind];
    [| discriminate].
  intros H. injection H as <-.
  exists er, level, percentile, (value_of_num er2), (value_of_num ir2),
    (value_of_num va).
  split; [exact Hl | reflexivity].
Qed.

Lemma level_of_in_levels (er : num) : In (AnalysisTools.level_of er) levels.
Proof.
  unfold AnalysisTools.level_of, levels.
  destruct (gt_int er 10); [simpl; auto |].
  destruct (gt_int er 5); [simpl; auto |].
  destruct (gt_int er 2); simpl; auto.
Qed.

(** X10. Whenever [analyze_engagement] returns, the result reports the sum
    of likes, comments and shares as [total_interactions], echoes the three
    counts in [metrics] together with the view count (1 in place of 0), and
    gives one of the four levels with the percentile that belongs to it:
    very_high 95, high 75, medium 50, low 25. *)
Theorem analyze_engagement_result_fields :
  forall likes comments shares views r,
    AnalysisTools.analyze_engagement likes comments shares views = Ok r ->
    field (Ok r) "total_interactions" = Some (VInt (likes + comments + shares))
    /\ field (Ok r) "metrics"
       = Some (VDict [("likes", VInt likes); ("comments", VInt comments);
                      ("shares", VInt shares);
                      ("views", VInt (if views =? 0 then 1 else views))])
    /\ exists level percentile,
         field (Ok r) "engagement_level" = Some (VStr level)
         /\ percentile_of (Ok r) = Some (VInt percentile)
         /\ In (level, percentile) levels.
Proof.
  intros likes comments shares views r H.
  apply analyze_engagement_inv in H.
  destruct H as (er & level & percentile & er2 & ir2 & va & Hl & ->).
  split; [reflexivity |]. split; [reflexivity |].
  exists level, percentile.
  split; [reflexivity |]. split; [reflexivity |].
  rewrite <- Hl. apply level_of_in_levels.
Qed.

Lemma analyze_engagement_result_fields_witness :
  (exists r, AnalysisTools.analyze_engagement 1000 50 20 10000 = Ok r)
  /\ field (AnalysisTools.analyze_engagement 1000 50 20 10000)
       "total_interactions" = Some (VInt 1070).
Proof.
  split; [eexists; vm_compute; reflexivity |].
  assert (H : exists r,
             AnalysisTools.analyze_engagement 1000 50 20 10000 = Ok r)
    by (eexists; vm_compute; reflexivity).
  destruct H as [r Hr]. rewrite Hr.
  apply (analyze_engagement_result_fields 1000 50 20 10000 r Hr).
Defined.



(* ================================================================== *)
(** ** Further properties of the pipeline assembly *)
(* ================================================================== *)

(** X12. No operation of the agent module changes or removes an agent that
    exists: [get_agent_system] and [initialize_agent_system] only add agents
    behind the existing ones, [reset_agent_system] leaves the heap alone.
    [get_agent_system] adds the five agents of a pipeline when nothing is
    cached and nothing at all otherwise; [initialize_agent_system] adds five
    on every call. *)
Theorem agent_operations_only_append :
  forall settings report_tools report_output s,
    let s' := snd (get_agent_system settings report_tools report_output s) in
    let h' := snd (initialize_agent_system settings report_tools report_output
                     (heap s)) in
    (forall a, (a < List.length (heap s))%nat ->
       nth_error (heap s') a = nth_error (heap s) a)
    /\ List.length (heap s')
       = match agent_system s with
         | Some _ => List.length (heap s)
         | None => (5 + List.length (heap s))%nat
         end
    /\ (forall a, (a < List.length (heap s))%nat ->
          nth_error h' a = nth_error (heap s) a)
    /\ List.length h' = (5 + List.length (heap s))%nat
    /\ heap (reset_agent_system s) = heap s.
Proof.
  intros settings report_tools report_output s s' h'.
  assert (Hh : h' = (heap s ++ pipeline_agents settings report_tools
                                 report_output (List.length (heap s)))%list).
  { unfold h'. rewrite initialize_eq. reflexivity. }
  assert (Hlen : List.length h' = (5 + List.length (heap s))%nat).
  { rewrite Hh, length_app. simpl. lia. }
  assert (Hold : forall a, (a < List.length (heap s))%nat ->
                   nth_error h' a = nth_error (heap s) a).
  { intros a Ha. rewrite Hh. apply nth_error_app1. exact Ha. }
  destruct (agent_system s) as [r |] eqn:Hc.
  - assert (Hs : s' = s)
      by (unfold s'; rewrite (get_cached _ _ _ s r Hc); reflexivity).
    rewrite Hs. repeat split; auto.
  - assert (Hs : heap s' = h').
    { unfold s'. rewrite (get_fresh _ _ _ s Hc). rewrite Hh. reflexivity. }
    rewrite Hs. repeat split; auto.
Qed.

Lemma shape_of_name (d : nat) (h : Heap) (r : ref) (nm md : string)
    (ins : instructions_text) (tl : list tool) (out : option output_model)
    (ds : list shape) :
  shape_of d h r = Some (Shape nm md ins tl out ds) ->
  name_of h r = Some nm.
Proof.
  destruct d as [| d]; [discriminate |].
  cbn [shape_of]. unfold name_of.
  destruct (nth_error h r) as [ag |]; [| discriminate].
  destruct (all_some _); [| discriminate].
  intros H. injection H as <- _ _ _ _ _. reflexivity.
Qed.

(** X13. In every state the module can reach, the handoff graph of the
    whole heap has no cycle, and [get_agent_system] returns the address of
    a live agent named "Coordinator" below which the full pipeline is
    assembled: the caller never sees a missing, partial or stale pipeline,
    however gets, resets and direct assemblies were interleaved before. *)
Theorem get_agent_system_always_returns_a_full_pipeline :
  forall settings report_tools report_output s,
    reachable settings report_tools report_output s ->
    let r := fst (get_agent_system settings report_tools report_output s) in
    let s' := snd (get_agent_system settings report_tools report_output s) in
    acyclic (heap s)
    /\ acyclic (heap s')
    /\ (r < List.length (heap s'))%nat
    /\ name_of (heap s') r = Some "Coordinator"
    /\ shape_of pipeline_depth (heap s') r
       = Some (pipeline_shape settings report_tools report_output).
Proof.
  intros settings report_tools report_output s Hs r s'.
  pose proof (consistent_reachable _ _ _ s Hs) as [Hord _].
  assert (Hs' : reachable settings report_tools report_output s')
    by (apply reach_get; exact Hs).
  pose proof (consistent_reachable _ _ _ s' Hs') as [Hord' Hc'].
  destruct (Hc' r (get_caches settings report_tools report_output s))
    as [Hlt Hsh].
  split; [apply ordered_acyclic; exact Hord |].
  split; [apply ordered_acyclic; exact Hord' |].
  split; [exact Hlt |].
  split; [| exact Hsh].
  unfold pipeline_shape in Hsh.
  eapply shape_of_name. exact Hsh.
Qed.

Lemma get_agent_system_always_returns_a_full_pipeline_witness :
  reachable default_settings [] (Some AnalysisReport)
    (reset_agent_system (snd (default_get initial_state)))
  /\ fst (default_get (reset_agent_system (snd (default_get initial_state))))
     = 9%nat
  /\ name_of
       (heap (snd (default_get
                     (reset_agent_system (snd (default_get initial_state))))))
       9%nat = Some "Coordinator".
Proof.
  assert (H : reachable default_settings [] (Some AnalysisReport)
                (reset_agent_system (snd (default_get initial_state)))).
  { apply reach_reset. apply reach_get. apply reach_import. }
  split; [exact H |]. split; [reflexivity |].
  destruct (get_agent_system_always_returns_a_full_pipeline default_settings
              [] (Some AnalysisReport) _ H) as (_ & _ & _ & Hn & _).
  exact Hn.
Defined.

Lemma fresh_edge (settings : Settings) (report_tools : list tool)
    (report_output : option output_model) (h : Heap) (a b : ref) :
  edge (h ++ pipeline_agents settings report_tools report_output
              (List.length h))%list a b ->
  (List.length h <= a)%nat ->
  (List.length h <= b < a)%nat.
Proof.
  intros (ag & Hlook & Hin) Ha.
  rewrite nth_error_app2 in Hlook by exact Ha.
  remember (a - List.length h)%nat as k eqn:Hk.
  destruct k as [| [| [| [| [| k]]]]]; simpl in Hlook;
    try (injection Hlook as <-; simpl in Hin;
         repeat (destruct Hin as [<- | Hin]; [lia |]); destruct Hin).
  destruct k; discriminate Hlook.
Qed.

Lemma fresh_path (settings : Settings) (report_tools : list tool)
    (report_output : option output_model) (h : Heap) (a b : ref) :
  path (h ++ pipeline_agents settings report_tools report_output
              (List.length h))%list a b ->
  (List.length h <= a)%nat ->
  (List.length h <= b < a)%nat.
Proof.
  intros Hp. induction Hp as [a b He | a b c He Hp IH]; intros Ha.
  - eapply fresh_edge; eauto.
  - pose proof (fresh_edge _ _ _ _ _ _ He Ha) as Hb.
    specialize (IH (proj1 Hb)). lia.
Qed.

(** X14. From the coordinator that [initialize_agent_system] returns, the
    handoffs lead to the four other agents it has just built, to each of
    them, and to no agent that existed before: a rebuilt pipeline shares
    nothing with an earlier one. *)
Theorem handoffs_stay_inside_the_new_pipeline :
  forall settings report_tools report_output h b,
    let built := initialize_agent_system settings report_tools report_output h in
    let ds := List.length h in
    path (snd built) (fst built) b <-> In b [S (S (S ds)); S (S ds); S ds; ds].
Proof.
  intros settings report_tools report_output h b built ds.
  unfold built. rewrite initialize_eq. cbn [fst snd].
  set (h' := (h ++ pipeline_agents settings report_tools report_output
                     (List.length h))%list).
  assert (E : forall k ag x,
             nth_error (pipeline_agents settings report_tools report_output
                          (List.length h)) k = Some ag ->
             In x (handoffs ag) -> edge h' (k + List.length h)%nat x).
  { intros k ag x Hk Hx. exists ag. split; [| exact Hx].
    unfold h'. rewrite lookup_new. exact Hk. }
  assert (E43 : edge h' (4 + ds)%nat (S (S (S ds))))
    by (eapply (E 4%nat); [reflexivity | simpl; auto]).
  assert (E42 : edge h' (4 + ds)%nat (S (S ds)))
    by (eapply (E 4%nat); [reflexivity | simpl; auto]).
  assert (E21 : edge h' (S (S ds)) (S ds))
    by (eapply (E 2%nat); [reflexivity | simpl; auto]).
  assert (E10 : edge h' (S ds) ds)
    by (eapply (E 1%nat); [reflexivity | simpl; auto]).
  split.
  - intros Hp. apply fresh_path in Hp; [| unfold ds; lia].
    fold ds in Hp. simpl.
    assert (b = ds \/ b = S ds \/ b = S (S ds) \/ b = S (S (S ds))) as Hb
      by lia.
    destruct Hb as [-> | [-> | [-> | ->]]]; auto.
  - simpl. intros [<- | [<- | [<- | [<- | []]]]].
    + apply path_one. exact E43.
    + apply path_one. exact E42.
    + eapply path_step; [exact E42 |]. apply path_one. exact E21.
    + eapply path_step; [exact E42 |].
      eapply path_step; [exact E21 |]. apply path_one. exact E10.
Qed.

(* ================================================================== *)
(** ** Properties of the analysis endpoint *)
(* ================================================================== *)

Section EndpointFacts.
Variable settings : Settings.
Variable report_tools : list tool.
Variable report_output : option output_model.
Variable services : Api.Services.

Let create := Api.create_analysis settings report_tools report_output services.
Let get := get_agent_system settings report_tools report_output.

(** The session key of a request: its own if it has one that is not empty,
    else one made from the identity of the request object. *)
Let key_of (object_id : Z) (req : Api.AnalysisRequest) : string :=
  Api.str_or (Api.session_id req) ("session_" ++ str_int object_id).

(** The engine a request works with, and whether it can be had. *)
Let engine_of (s : Api.State) : Api.AsyncEngine :=
  match Api.async_engine s with
  | Some e => e
  | None => Api.mkAsyncEngine (Api.database_url services)
  end.

Let engine_failure (s : Api.State) : option exn :=
  match Api.async_engine s with
  | Some _ => None
  | None => Api.create_async_engine services (Api.database_url services)
  end.

Let failed (req : Api.AnalysisRequest) (e : exn) : Api.AnalysisResponse :=
  Api.mkAnalysisResponse (Api.str_or (Api.session_id req) "unknown") "failed"
    None (Some (str_exn e)).

(** The call of [Runner.run] a request makes once it has its session. *)
Let call_of (object_id : Z) (req : Api.AnalysisRequest) (s : Api.State)
  : Api.RunCall :=
  Api.mkRunCall (fst (get (Api.agents s))) (Api.request req)
    (Api.mkSession (key_of object_id req) (engine_of s)) (Api.max_turns req).

(** [create_analysis], case by case. *)
Lemma create_analysis_cases (object_id : Z) (req : Api.AnalysisRequest)
    (s : Api.State) :
  create object_id req s =
    match engine_failure s with
    | Some e => (Ok (failed req e), s)
    | None =>
        let s1 := Api.mkState (Some (engine_of s)) (Api.agents s) (Api.runs s) in
        match Api.open_session services (key_of object_id req) (engine_of s) with
        | Some e => (Ok (failed req e), s1)
        | None =>
            let s2 := Api.mkState (Some (engine_of s))
                        (snd (get (Api.agents s)))
                        (call_of object_id req s :: Api.runs s) in
            match Api.Runner_run services (List.length (Api.runs s))
                    (fst (get (Api.agents s))) (Api.request req)
                    (Api.mkSession (key_of object_id req) (engine_of s))
                    (Api.max_turns req) with
            | Raise e => (Ok (failed req e), s2)
            | Ok out =>
                match Api.result_field services out with
                | Raise e => (Ok (failed req e), s2)
                | Ok r =>
                    (Ok (Api.mkAnalysisResponse (key_of object_id req)
                           "completed" (Some r) None), s2)
                end
            end
        end
    end.
Proof.
  unfold create, Api.create_analysis, Api.try_except, Api.bind,
    Api.get_async_engine, Api.new_session, Api.get_agent_system, Api.run,
    Api.ret, engine_failure, engine_of, call_of, failed, key_of, get.
  destruct s as [eng ag rs]. cbn.
  destruct eng as [e0 |]; cbn.
  - destruct (Api.open_session services _ e0) as [e |]; cbn; [reflexivity |].
    destruct (get_agent_system settings report_tools report_output ag)
      as [r ag']; cbn.
    destruct (Api.Runner_run services _ r _ _ _) as [out | e]; cbn;
      [| reflexivity].
    destruct (Api.result_field services out); reflexivity.
  - destruct (Api.create_async_engine services _) as [e |]; cbn;
      [reflexivity |].
    destruct (Api.open_session services _ _) as [e |]; cbn; [reflexivity |].
    destruct (get_agent_system settings report_tools report_output ag)
      as [r ag']; cbn.
    destruct (Api.Runner_run services _ r _ _ _) as [out | e]; cbn;
      [| reflexivity].
    destruct (Api.result_field services out); reflexivity.
Qed.

Lemma get_async_engine_ok (s : Api.State) (engine : Api.AsyncEngine) :
  fst (Api.get_async_engine services s) = Ok engine ->
  engine_failure s = None /\ engine_of s = engine.
Proof.
  unfold Api.get_async_engine, engine_failure, engine_of.
  destruct (Api.async_engine s) as [e0 |]; cbn.
  - intros H. injection H as <-. split; reflexivity.
  - destruct (Api.create_async_engine services _) as [e |]; cbn;
      [discriminate |].
    intros H. injection H as <-. split; reflexivity.
Qed.

End EndpointFacts.

(** X15. [create_analysis] always answers: whatever the request, the state
    of the process and the behaviour of the database, the session store,
    the runner and the response model, it returns a response and raises
    nothing.  The response is either "completed", with a result, no error
    and the session key as [request_id], or "failed", with no result, the
    text of the exception as [error] and, as [request_id], the session id
    the client sent or "unknown" when it sent none or an empty one (not the
    key that was made up for the session). *)
Theorem create_analysis_always_answers :
  forall settings report_tools report_output services object_id req s,
    exists resp,
      fst (Api.create_analysis settings report_tools report_output services
             object_id req s) = Ok resp
      /\ ((Api.status resp = "completed"
           /\ Api.error resp = None
           /\ (exists r, Api.result resp = Some r)
           /\ Api.request_id resp
              = Api.str_or (Api.session_id req)
                  ("session_" ++ str_int object_id))
          \/ (Api.status resp = "failed"
              /\ Api.result resp = None
              /\ (exists e, Api.error resp = Some (str_exn e))
              /\ Api.request_id resp
                 = Api.str_or (Api.session_id req) "unknown")).
Proof.
  intros settings report_tools report_output services object_id req s.
  rewrite create_analysis_cases.
  assert (F : forall e st,
             exists resp,
               fst (Ok (Api.mkAnalysisResponse
                          (Api.str_or (Api.session_id req) "unknown")
                          "failed" None (Some (str_exn e))), st : Api.State)
               = Ok resp
               /\ ((Api.status resp = "completed"
                    /\ Api.error resp = None
                    /\ (exists r, Api.result resp = Some r)
                    /\ Api.request_id resp
                       = Api.str_or (Api.session_id req)
                           ("session_" ++ str_int object_id))
                   \/ (Api.status resp = "failed"
                       /\ Api.result resp = None
                       /\ (exists e, Api.error resp = Some (str_exn e))
                       /\ Api.request_id resp
                          = Api.str_or (Api.session_id req) "unknown"))).
  { intros e st. eexists. split; [reflexivity |]. right.
    repeat split. exists e. reflexivity. }
  destruct (match Api.async_engine s with
            | Some _ => None
            | None => Api.create_async_engine services
                        (Api.database_url services)
            end) as [e |]; [apply F |].
  cbv zeta.
  destruct (Api.open_session services _ _) as [e |]; [apply F |].
  destruct (Api.Runner_run services _ _ _ _ _) as [out | e]; [| apply F].
  destruct (Api.result_field services out) as [r | e]; [| apply F].
  eexists. split; [reflexivity |]. left.
  repeat split. exists r. reflexivity.
Qed.

(** X16. Once the engine and the session are there, the answer follows the
    run.  A run that ends with an object that is not an output model gives
    "completed" with the result [{"output": str(object)}]; one that ends
    with an output model gives "completed" with what the response model
    makes of it, or "failed" if it rejects it; a run that raises gives
    "failed" with the text of the exception.  In every case exactly one run
    was made: on the cached coordinator, with the request text and the
    [max_turns] of the request as they came, in a session under the
    request's key. *)
Theorem create_analysis_reports_the_run :
  forall settings report_tools report_output services object_id req s engine,
    let key :=
      Api.str_or (Api.session_id req) ("session_" ++ str_int object_id) in
    let coordinator :=
      fst (get_agent_system settings report_tools report_output
             (Api.agents s)) in
    let session := Api.mkSession key engine in
    let failed e :=
      Api.mkAnalysisResponse (Api.str_or (Api.session_id req) "unknown")
        "failed" None (Some (str_exn e)) in
    let after := Api.create_analysis settings report_tools report_output
                   services object_id req s in
    fst (Api.get_async_engine services s) = Ok engine ->
    Api.open_session services key engine = None ->
    fst after
    = Ok match Api.Runner_run services (List.length (Api.runs s)) coordinator
                 (Api.request req) session (Api.max_turns req) with
         | Ok (Api.OtherOutput text) =>
             Api.mkAnalysisResponse key "completed"
               (Some (VDict [("output", VStr text)])) None
         | Ok (Api.OutputModel m) =>
             match Api.validate_result services m with
             | Ok r => Api.mkAnalysisResponse key "completed" (Some r) None
             | Raise e => failed e
             end
         | Raise e => failed e
         end
    /\ Api.runs (snd after)
       = Api.mkRunCall coordinator (Api.request req) session
           (Api.max_turns req) :: Api.runs s
    /\ agent_system (Api.agents (snd after)) = Some coordinator.
Proof.
  intros settings report_tools report_output services object_id req s engine
    key coordinator session failed after Heng Hopen.
  apply get_async_engine_ok in Heng. cbv zeta in Heng.
  destruct Heng as [Hfail Hengine].
  unfold after. rewrite create_analysis_cases. cbv zeta.
  rewrite Hfail, Hengine. fold key. rewrite Hopen.
  fold coordinator. fold session.
  assert (Hc : agent_system
                 (snd (get_agent_system settings report_tools report_output
                         (Api.agents s))) = Some coordinator)
    by apply get_caches.
  destruct (Api.Runner_run services _ coordinator _ session _)
    as [[m | text] | e]; cbn [Api.result_field].
  - destruct (Api.validate_result services m) as [r | e];
      repeat split; assumption.
  - repeat split; assumption.
  - repeat split; assumption.
Qed.

Lemma create_analysis_reports_the_run_witness :
  fst (Api.get_async_engine (Api.smooth "done") Api.initial_state)
  = Ok (Api.mkAsyncEngine "postgresql+asyncpg://localhost/sessions")
  /\ Api.open_session (Api.smooth "done") "session_7"
       (Api.mkAsyncEngine "postgresql+asyncpg://localhost/sessions") = None
  /\ fst (Api.create_analysis_default (Api.smooth "done") 7
            (Api.anonymous "analyse") Api.initial_state)
     = Ok (Api.mkAnalysisResponse "session_7" "completed"
             (Some (VDict [("output", VStr "done")])) None).
Proof.
  split; [reflexivity |]. split; [reflexivity |].
  apply (create_analysis_reports_the_run default_settings []
           (Some AnalysisReport) (Api.smooth "done") 7
           (Api.anonymous "analyse") Api.initial_state
           (Api.mkAsyncEngine "postgresql+asyncpg://localhost/sessions")
           eq_refl eq_refl).
Defined.

(** What a request does to the runs and to the agent module: nothing, or one
    run on the coordinator that [get_agent_system] returns. *)
Lemma create_analysis_step (settings : Settings) (report_tools : list tool)
    (report_output : option output_model) (services : Api.Services)
    (object_id : Z) (req : Api.AnalysisRequest) (s : Api.State) :
  let s' := snd (Api.create_analysis settings report_tools report_output
                   services object_id req s) in
  (Api.runs s' = Api.runs s /\ Api.agents s' = Api.agents s)
  \/ exists call,
       Api.runs s' = call :: Api.runs s
       /\ Api.run_agent call
          = fst (get_agent_system settings report_tools report_output
                   (Api.agents s))
       /\ Api.agents s'
          = snd (get_agent_system settings report_tools report_output
                   (Api.agents s)).
Proof.
  cbv zeta. rewrite create_analysis_cases. cbv zeta.
  destruct (match Api.async_engine s with
            | Some _ => None
            | None => Api.create_async_engine services
                        (Api.database_url services)
            end) as [e |]; [left; split; reflexivity |].
  destruct (Api.open_session services _ _) as [e |];
    [left; split; reflexivity |].
  right. eexists.
  destruct (Api.Runner_run services _ _ _ _ _) as [out | e];
    [destruct (Api.result_field services out) |];
    (split; [reflexivity | split; reflexivity]).
Qed.

Lemma create_analysis_keeps_pipeline (settings : Settings)
    (report_tools : list tool) (report_output : option output_model)
    (services : Api.Services) (object_id : Z) (req : Api.AnalysisRequest)
    (s : Api.State) (r : ref) :
  agent_system (Api.agents s) = Some r ->
  Api.agents (snd (Api.create_analysis settings report_tools report_output
                     services object_id req s)) = Api.agents s.
Proof.
  intros Hr.
  destruct (create_analysis_step settings report_tools report_output services
              object_id req s) as [[_ Ha] | (call & _ & _ & Ha)];
    [exact Ha |].
  rewrite Ha, (get_cached settings report_tools report_output _ r Hr).
  reflexivity.
Qed.

Lemma cons_not_self {X} (x : X) (l : list X) : l <> x :: l.
Proof.
  intros H. apply (f_equal (@List.length X)) in H. simpl in H. lia.
Qed.

(** X17. Requests share one pipeline.  A request never changes an
    assembled pipeline; it assembles one only if none is cached and only
    once its engine and session are there, in which case it also makes its
    run, on the coordinator that is cached from then on.  So two requests
    that both reach the runner run the same coordinator instance, and the
    second adds no agent. *)
Theorem requests_share_one_pipeline :
  forall settings report_tools report_output services object_id req s,
    let s' := snd (Api.create_analysis settings report_tools report_output
                     services object_id req s) in
    (forall r, agent_system (Api.agents s) = Some r ->
               Api.agents s' = Api.agents s)
    /\ ((Api.runs s' = Api.runs s /\ Api.agents s' = Api.agents s)
        \/ exists call,
             Api.runs s' = call :: Api.runs s
             /\ agent_system (Api.agents s') = Some (Api.run_agent call))
    /\ (forall services2 object_id2 req2 call1 call2,
          let s'' := snd (Api.create_analysis settings report_tools
                            report_output services2 object_id2 req2 s') in
          Api.runs s' = call1 :: Api.runs s ->
          Api.runs s'' = call2 :: Api.runs s' ->
          Api.run_agent call2 = Api.run_agent call1
          /\ Api.agents s'' = Api.agents s').
Proof.
  intros settings report_tools report_output services object_id req s s'.
  pose proof (create_analysis_step settings report_tools report_output
                services object_id req s) as Hstep.
  cbv zeta in Hstep. fold s' in Hstep.
  split; [intros r Hr; eapply create_analysis_keeps_pipeline; exact Hr |].
  split.
  - destruct Hstep as [H | (call & Hr & Hc & Ha)]; [left; exact H |].
    right. exists call. split; [exact Hr |].
    rewrite Ha, Hc. apply get_caches.
  - intros services2 object_id2 req2 call1 call2 s'' H1 H2.
    destruct Hstep as [[Hr _] | (c1 & Hr & Hc & Ha)].
    + rewrite Hr in H1. exfalso. exact (cons_not_self _ _ H1).
    + rewrite Hr in H1. injection H1 as <-.
      assert (Hcached : agent_system (Api.agents s') = Some (Api.run_agent c1)).
      { rewrite Ha, Hc. apply get_caches. }
      split;
        [| eapply create_analysis_keeps_pipeline; exact Hcached].
      pose proof (create_analysis_step settings report_tools report_output
                    services2 object_id2 req2 s') as Hstep2.
      cbv zeta in Hstep2. fold s'' in Hstep2.
      destruct Hstep2 as [[Hr2 _] | (c2 & Hr2 & Hc2 & _)].
      * rewrite Hr2 in H2. exfalso. exact (cons_not_self _ _ H2).
      * rewrite Hr2 in H2. injection H2 as <-.
        rewrite Hc2.
        rewrite (get_cached settings report_tools report_output _ _ Hcached).
        reflexivity.
Qed.

(** A request that finds an engine cached leaves it cached and uses it. *)
Lemma create_analysis_uses_cached_engine (settings : Settings)
    (report_tools : list tool) (report_output : option output_model)
    (services : Api.Services) (object_id : Z) (req : Api.AnalysisRequest)
    (s : Api.State) (engine : Api.AsyncEngine) :
  Api.async_engine s = Some engine ->
  let s' := snd (Api.create_analysis settings report_tools report_output
                   services object_id req s) in
  Api.async_engine s' = Some engine
  /\ forall call,
       Api.runs s' = call :: Api.runs s ->
       Api.session_engine (Api.run_session call) = engine.
Proof.
  intros He. cbv zeta. rewrite create_analysis_cases. cbv zeta. rewrite He.
  destruct (Api.open_session services _ _) as [e |].
  - split; [reflexivity |]. intros call Hc. cbn [snd Api.runs] in Hc.
    exfalso. exact (cons_not_self _ _ Hc).
  - destruct (Api.Runner_run services _ _ _ _ _) as [out | e];
      [destruct (Api.result_field services out) |];
      (split; [reflexivity |]; intros call Hc; cbn [snd Api.runs] in Hc;
       injection Hc as <-; reflexivity).
Qed.

(** X18. The engine is created once.  A request that cannot create the
    engine answers "failed", leaves no engine behind and assembles no
    pipeline, so the next request tries again.  A request that creates it
    takes the URL from [DATABASE_URL] if the variable is set and from the
    setting otherwise, and leaves it cached: later requests use that engine
    for their session whatever the environment says by then. *)
Theorem engine_is_created_once :
  forall settings report_tools report_output services services2
         object_id req object_id2 req2 s,
    let url := match Api.DATABASE_URL services with
               | Some u => u
               | None => Api.session_db_url services
               end in
    let after := Api.create_analysis settings report_tools report_output
                   services object_id req s in
    let after2 := Api.create_analysis settings report_tools report_output
                    services2 object_id2 req2 (snd after) in
    Api.async_engine s = None ->
    match Api.create_async_engine services url with
    | Some e =>
        fst after
        = Ok (Api.mkAnalysisResponse
                (Api.str_or (Api.session_id req) "unknown") "failed" None
                (Some (str_exn e)))
        /\ snd after = s
    | None =>
        Api.async_engine (snd after) = Some (Api.mkAsyncEngine url)
        /\ Api.async_engine (snd after2) = Some (Api.mkAsyncEngine url)
        /\ forall call,
             Api.runs (snd after2) = call :: Api.runs (snd after) ->
             Api.session_engine (Api.run_session call) = Api.mkAsyncEngine url
    end.
Proof.
  intros settings report_tools report_output services services2 object_id req
    object_id2 req2 s url after after2 Hnone.
  assert (Hurl : Api.database_url services = url) by reflexivity.
  assert (Hafter : after
                   = Api.create_analysis settings report_tools report_output
                       services object_id req s) by reflexivity.
  rewrite create_analysis_cases in Hafter. cbv zeta in Hafter.
  rewrite Hnone, Hurl in Hafter.
  destruct (Api.create_async_engine services url) as [e |].
  - rewrite Hafter. split; reflexivity.
  - assert (H1 : Api.async_engine (snd after) = Some (Api.mkAsyncEngine url)).
    { rewrite Hafter.
      destruct (Api.open_session services _ _) as [e |]; [reflexivity |].
      destruct (Api.Runner_run services _ _ _ _ _) as [out | e];
        [destruct (Api.result_field services out) |]; reflexivity. }
    split; [exact H1 |].
    apply (create_analysis_uses_cached_engine settings report_tools
             report_output services2 object_id2 req2 (snd after) _ H1).
Qed.

Lemma engine_is_created_once_witness :
  Api.async_engine Api.initial_state = None
  /\ fst (Api.create_analysis_default Api.no_database 7
            (Api.anonymous "analyse") Api.initial_state)
     = Ok (Api.mkAnalysisResponse "unknown" "failed" None
             (Some "connection refused"))
  /\ snd (Api.create_analysis_default Api.no_database 7
            (Api.anonymous "analyse") Api.initial_state)
     = Api.initial_state.
Proof.
  split; [reflexivity |].
  apply (engine_is_created_once default_settings [] (Some AnalysisReport)
           Api.no_database Api.no_database 7 (Api.anonymous "analyse") 8
           (Api.anonymous "again") Api.initial_state eq_refl).
Defined.
